(** * The session/provider controller of the opencode terminal client

    A shallow embedding of [packages/tui/internal/app/app.go]:
    provider and model resolution ([InitializeProvider],
    [getDefaultModel]), the busy flag ([IsBusy]), lazy session creation and
    the optimistic send ([CreateSession], [SendChatMessage]) and the session
    listing ([ListSessions]).

    Conventions of the embedding.
    - A Go pointer that may be nil is an [option]; dereferencing [None] is
      the run-time panic [Panic] of the [Run] type.
    - A Go map is a [gmap].  Ranging over a map visits its entries in an
      order the language leaves open: the order is supplied by an oracle
      [rangeModels], indexed by the place of the [range] statement, and
      every theorem holds for every oracle that enumerates the map.
    - Loop variables are per-iteration (the module targets Go 1.22 or
      later), so [&provider] taken inside a loop body keeps the value of
      that iteration.
    - Calls of the generated HTTP client return a pair (response, error);
      the pair is an argument of the embedded function.
    - The requests issued, the [slog] records written and the assignments
      to the shared [App] fields are collected in a trace, in program
      order. *)

From Stdlib Require Import ZArith Lia.
From stdpp Require Import base option list strings gmap fin_maps pretty sorting.

Open Scope string_scope.
Open Scope list_scope.
#[local] Set Warnings "-register-all".

(** ** Run-time outcomes *)

(** A computation either completes with a value or dies on a nil
    dereference. *)
Inductive Run (A : Type) : Type :=
| Done (a : A)
| Panic.
Arguments Done {A} a.
Arguments Panic {A}.

(** [deref p] is Go's [*p]. *)
Definition deref {A} (p : option A) : Run A :=
  match p with
  | Some a => Done a
  | None => Panic
  end.

(** [isNil p] is Go's [p == nil]. *)
Definition isNil {A} (p : option A) : bool :=
  match p with
  | Some _ => false
  | None => true
  end.

(** The Go [error] interface, through its [Error()] text. *)
Definition error := string.

(** [fmt]'s [%d] verb. *)
Definition fmt_d (n : Z) : string := pretty n.

(** The conversion [float32(n)] of an [int64]: the nearest value with a
    24-bit significand, ties to even.  A [float32] is represented by the
    number it denotes. *)
Definition float32_of_int64 (n : Z) : Z :=
  let a := Z.abs n in
  if (a <? 2 ^ 24)%Z then n
  else
    let e := (Z.log2 a - 23)%Z in
    let q := (a / 2 ^ e)%Z in
    let r := (a mod 2 ^ e)%Z in
    let half := (2 ^ (e - 1))%Z in
    let q' := if (half <? r)%Z || ((r =? half)%Z && Z.odd q)
              then (q + 1)%Z else q in
    (Z.sgn n * (q' * 2 ^ e))%Z.

(** ** Package [client]: the types of the generated API client *)

Module ModelInfo.
(** Modelled from the spec: the generated type [client.ModelInfo] is not
    part of the sources at hand; the data model gives a model an id and a
    display name. *)
Record t := { Id : string; Name : string }.

(** Go's zero value, what indexing a map at an absent key yields. *)
Definition zero : t := {| Id := ""; Name := "" |}.
End ModelInfo.

Module ProviderInfo.
(** Modelled from the spec: the generated type [client.ProviderInfo] is
    not part of the sources at hand; a provider has an id and a mapping
    from model id to model ([provider.Id], [provider.Models] in
    app.go). *)
Record t := { Id : string; Models : gmap string ModelInfo.t }.
End ProviderInfo.

Module ProviderList.
(** The decoded body of a provider listing: [JSON200.Providers] and
    [JSON200.Default]. *)
Record t := {
  Default : gmap string string;
  Providers : list ProviderInfo.t
}.
End ProviderList.

Module PostProviderListResponse.
Record t := {
  Body : string;
  StatusCode : Z;
  JSON200 : option ProviderList.t
}.
End PostProviderListResponse.

Module SessionInfo.
(** Modelled from the spec: the generated type [client.SessionInfo] is
    not part of the sources at hand; a session has an id and a creation
    time ([Session.Id], [Time.Created] in app.go).  The creation time is
    represented by the number it denotes. *)
Record t := { Id : string; Created : Z }.

(** [&client.SessionInfo{}], the session of a fresh [App]. *)
Definition zero : t := {| Id := ""; Created := 0 |}.
End SessionInfo.

Module PostSessionCreateResponse.
Record t := { StatusCode : Z; JSON200 : option SessionInfo.t }.
End PostSessionCreateResponse.

Module PostSessionListResponse.
Record t := { StatusCode : Z; JSON200 : option (list SessionInfo.t) }.
End PostSessionListResponse.

(** [client.User] and its sibling. *)
Inductive MessageInfoRole := User | Assistant.

Definition role_name (r : MessageInfoRole) : string :=
  match r with
  | User => "user"
  | Assistant => "assistant"
  end.

Module MessagePartText.
Record t := { Type_ : string; Text : string }.
End MessagePartText.

(** [client.MessagePart] is a union; app.go fills it through
    [FromMessagePartText] only. *)
Inductive MessagePart :=
| FromMessagePartText (v : MessagePartText.t).

(** The values of the [Tool] map are never built by app.go. *)
Inductive MessageMetadata_Tool_AdditionalProperties :=
| ToolProperties.

Module MessageTime.
(** [struct { Completed *float32; Created float32 }] (lines 331-334). *)
Record t := { Completed : option Z; Created : Z }.
End MessageTime.

Module MessageMetadata.
Record t := {
  SessionID : string;
  Time : MessageTime.t;
  Tool : gmap string MessageMetadata_Tool_AdditionalProperties
}.
End MessageMetadata.

Module MessageInfo.
Record t := {
  Id : string;
  Role : MessageInfoRole;
  Parts : list MessagePart;
  Metadata : MessageMetadata.t
}.
End MessageInfo.

Module PostSessionChatJSONRequestBody.
Record t := {
  SessionID : string;
  Parts : list MessagePart;
  ProviderID : string;
  ModelID : string
}.
End PostSessionChatJSONRequestBody.

(** ** Package [config]: the persisted client state *)

Module State.
Record t := { Provider : string; Model : string; Theme : string }.
End State.

(** ** Package [app] *)

Module Attachment.
Record t := {
  FilePath : string;
  FileName : string;
  MimeType : string;
  Content : list Byte.byte
}.
End Attachment.

(** The fields of [App] that the embedded functions read or write. *)
Module App.
Record t := {
  State : State.t;
  Provider : option ProviderInfo.t;
  Model : option ModelInfo.t;
  Session : option SessionInfo.t;
  Messages : list MessageInfo.t
}.

Definition with_Session (a : t) (s : option SessionInfo.t) : t :=
  {| State := State a; Provider := Provider a; Model := Model a;
     Session := s; Messages := Messages a |}.

Definition with_Messages (a : t) (ms : list MessageInfo.t) : t :=
  {| State := State a; Provider := Provider a; Model := Model a;
     Session := Session a; Messages := ms |}.
End App.

(** The messages of app.go, and the toast message of package [toast]. *)
Inductive Msg :=
| SessionSelectedMsg (session : option SessionInfo.t)
| ModelSelectedMsg (Provider : ProviderInfo.t) (Model : ModelInfo.t)
| OptimisticMessageAddedMsg (Message : MessageInfo.t)
| ErrorToastMsg (text : string).

(** A [tea.Cmd] is a deferred computation yielding a message.  The
    commands app.go builds, by the call that builds them. *)
Inductive Cmd :=
| CmdHandler (msg : Msg)                 (* util.CmdHandler(msg) *)
| NewErrorToast (text : string)          (* toast.NewErrorToast(text) *)
| PostChat (parts : list MessagePart)    (* the closure of lines 344-362 *)
| Batch (cmds : list Cmd).               (* tea.Batch(cmds...) *)

(** ** Traces *)

Inductive Level := LevelDebug | LevelWarn | LevelError.

Inductive Request :=
| PostProviderList
| PostSessionCreate
| PostSessionList
| PostSessionChat (body : PostSessionChatJSONRequestBody.t).

Inductive Event :=
| EvRequest (r : Request)
| EvLog (level : Level) (msg : string) (attrs : list (string * string))
| EvSetSession (session : option SessionInfo.t)
| EvAppendMessage (m : MessageInfo.t).

(** A traced computation that may panic. *)
Definition M (A : Type) : Type := list Event * Run A.

Definition ret {A} (a : A) : M A := ([], Done a).

Definition bind {A B} (m : M A) (f : A → M B) : M B :=
  match m with
  | (t, Done a) => let '(t', r) := f a in ((t ++ t')%list, r)
  | (t, Panic) => (t, Panic)
  end.

Definition emit (e : Event) : M unit := ([e], Done tt).

Definition lift {A} (r : Run A) : M A := ([], r).

Notation "x ←! m ; k" := (bind m (fun x => k))
  (at level 100, m at next level, right associativity, only parsing).
Notation "m ;! k" := (bind m (fun _ => k))
  (at level 100, k at level 200, right associativity, only parsing).

Definition slog_Error (msg : string) (attrs : list (string * string)) : M unit :=
  emit (EvLog LevelError msg attrs).

(** The outcome of a call of the generated client: [(response, err)]. *)
Definition Outcome (R : Type) : Type := option R * option error.

(** ** Provider and model resolution *)

(** The places where app.go ranges over a [Models] map. *)
Inductive RangeSite :=
| AtAnthropic               (* getDefaultModel, called at line 159 *)
| AtSeed (i : nat)          (* getDefaultModel, line 165, i-th provider *)
| AtReconcile (i : nat).    (* line 180, i-th provider *)

Section Resolution.

(** The order in which a [range] over a model mapping visits it. *)
Variable rangeModels :
  RangeSite → gmap string ModelInfo.t → list (string * ModelInfo.t).

(** [getDefaultModel] (lines 200-210).  The callers have already
    dereferenced [response.JSON200]; the decoded body is passed. *)
Definition getDefaultModel (site : RangeSite) (response : ProviderList.t)
    (provider : ProviderInfo.t) : option ModelInfo.t :=
  match ProviderList.Default response !! ProviderInfo.Id provider with
  | Some match_ =>
      let model :=
        default ModelInfo.zero (ProviderInfo.Models provider !! match_) in
      Some model
  | None =>
      match rangeModels site (ProviderInfo.Models provider) with
      | (_, model) :: _ => Some model
      | [] => None
      end
  end.

(** Lines 149-154: the last provider whose id is "anthropic". *)
Definition findAnthropic (ps : list ProviderInfo.t) : option ProviderInfo.t :=
  foldl (fun anthropic provider =>
           if decide (ProviderInfo.Id provider = "anthropic")
           then Some provider else anthropic)
        None ps.

(** The variables [defaultProvider], [defaultModel] and [providers]. *)
Definition Seed : Type :=
  option ProviderInfo.t * option ModelInfo.t * list ProviderInfo.t.

(** One iteration of the loop at lines 162-168. *)
Definition seedStep (response : ProviderList.t) (i : nat)
    (acc : Seed) (provider : ProviderInfo.t) : Seed :=
  let '(defaultProvider, defaultModel, providers) := acc in
  let '(defaultProvider, defaultModel) :=
    if isNil defaultProvider || isNil defaultModel
    then (Some provider, getDefaultModel (AtSeed i) response provider)
    else (defaultProvider, defaultModel) in
  (defaultProvider, defaultModel, (providers ++ [provider])%list).

Fixpoint seedLoop (response : ProviderList.t) (i : nat)
    (ps : list ProviderInfo.t) (acc : Seed) : Seed :=
  match ps with
  | [] => acc
  | provider :: rest =>
      seedLoop response (S i) rest (seedStep response i acc provider)
  end.

(** Lines 145-168: the preliminary default and the copied provider
    list. *)
Definition seedDefault (response : ProviderList.t) : Seed :=
  let anthropic := findAnthropic (ProviderList.Providers response) in
  let '(defaultProvider, defaultModel) :=
    match anthropic with
    | Some a => (Some a, getDefaultModel AtAnthropic response a)
    | None => (None, None)
    end in
  seedLoop response 0 (ProviderList.Providers response)
           (defaultProvider, defaultModel, []).

(** The variables [currentProvider] and [currentModel]. *)
Definition Current : Type := option ProviderInfo.t * option ModelInfo.t.

(** Lines 180-184: the last visited model whose [Id] is the persisted
    one replaces [currentModel]. *)
Definition matchModel (wanted : string)
    (visited : list (string * ModelInfo.t)) (currentModel : option ModelInfo.t)
    : option ModelInfo.t :=
  foldl (fun cur kv =>
           if decide (ModelInfo.Id kv.2 = wanted) then Some kv.2 else cur)
        currentModel visited.

(** One iteration of the loop at lines 176-186. *)
Definition reconcileStep (state : State.t) (i : nat)
    (acc : Current) (provider : ProviderInfo.t) : Current :=
  let '(currentProvider, currentModel) := acc in
  if decide (ProviderInfo.Id provider = State.Provider state)
  then (Some provider,
        matchModel (State.Model state)
                   (rangeModels (AtReconcile i) (ProviderInfo.Models provider))
                   currentModel)
  else (currentProvider, currentModel).

Fixpoint reconcileLoop (state : State.t) (i : nat)
    (ps : list ProviderInfo.t) (acc : Current) : Current :=
  match ps with
  | [] => acc
  | provider :: rest =>
      reconcileLoop state (S i) rest (reconcileStep state i acc provider)
  end.

(** Lines 187-190: fall back to the default unless both were found. *)
Definition fallback (cur : Current) (defaultProvider : option ProviderInfo.t)
    (defaultModel : option ModelInfo.t) : Current :=
  if isNil cur.1 || isNil cur.2
  then (defaultProvider, defaultModel)
  else cur.

(** Lines 193-196: the result message, built from both pointers. *)
Definition selected (cur : Current) : Run Msg :=
  match deref cur.1 with
  | Done Provider =>
      match deref cur.2 with
      | Done Model => Done (ModelSelectedMsg Provider Model)
      | Panic => Panic
      end
  | Panic => Panic
  end.

(** Lines 174-196 for a given seed. *)
Definition resolve (state : State.t) (seed : Seed) : Run Msg :=
  let '(defaultProvider, defaultModel, providers) := seed in
  selected (fallback (reconcileLoop state 0 providers (None, None))
                     defaultProvider defaultModel).

(** The command returned by [InitializeProvider] (lines 133-198), run
    with [(providersResponse, err)] the outcome of the provider
    listing.  [Done None] is the command returning nil. *)
Definition InitializeProvider (a : App.t)
    (listing : Outcome PostProviderListResponse.t) : M (option Msg) :=
  let '(providersResponse, err) := listing in
  emit (EvRequest PostProviderList) ;!
  match err with
  | Some e =>
      slog_Error "Failed to list providers" [("error", e)] ;!
      ret None
  | None =>
      match providersResponse with
      | Some r =>
          if bool_decide (PostProviderListResponse.StatusCode r ≠ 200%Z)
          then
            slog_Error "failed to retrieve providers"
              [("status", fmt_d (PostProviderListResponse.StatusCode r));
               ("message", PostProviderListResponse.Body r)] ;!
            ret None
          else
            response ←! lift (deref (PostProviderListResponse.JSON200 r));
            let seed := seedDefault response in
            if bool_decide (length seed.2 = 0)
            then slog_Error "No providers configured" [] ;! ret None
            else msg ←! lift (resolve (App.State a) seed); ret (Some msg)
      | None => lift Panic
      end
  end.

End Resolution.

(** A provider yields a default model when the defaults map has an entry
    for it or its model mapping is not empty. *)
Definition yieldsModel (response : ProviderList.t) (provider : ProviderInfo.t)
  : Prop :=
  is_Some (ProviderList.Default response !! ProviderInfo.Id provider)
  ∨ ProviderInfo.Models provider ≠ ∅.

(** The persisted selection is found among the providers: some provider
    has the persisted provider id and holds a model with the persisted
    model id. *)
Definition persisted (state : State.t) (ps : list ProviderInfo.t) : Prop :=
  ∃ p k m, p ∈ ps
    ∧ ProviderInfo.Id p = State.Provider state
    ∧ ProviderInfo.Models p !! k = Some m
    ∧ ModelInfo.Id m = State.Model state.

(** What the loop has established after the providers [done]. *)
Definition reconciled (state : State.t) (done : list ProviderInfo.t)
    (acc : Current) : Prop :=
  match acc.2 with
  | Some m =>
      (∃ p, acc.1 = Some p ∧ p ∈ done
            ∧ ProviderInfo.Id p = State.Provider state)
      ∧ ModelInfo.Id m = State.Model state
      ∧ ∃ p' k, p' ∈ done
          ∧ ProviderInfo.Id p' = State.Provider state
          ∧ ProviderInfo.Models p' !! k = Some m
  | None => ¬ persisted state done
  end.

(** A successful provider listing with the given decoded body. *)
Definition ok_response (response : ProviderList.t)
  : PostProviderListResponse.t :=
  {| PostProviderListResponse.Body := "";
     PostProviderListResponse.StatusCode := 200;
     PostProviderListResponse.JSON200 := Some response |}.

Definition listed (response : ProviderList.t)
  : Outcome PostProviderListResponse.t :=
  (Some (ok_response response), None).

(** A concrete visiting order: the enumeration of the map. *)
Definition rangeSorted (_ : RangeSite) (m : gmap string ModelInfo.t)
  : list (string * ModelInfo.t) := map_to_list m.

(** ** The busy flag *)

(** [IsBusy] (lines 219-226).  The index [len - 1] is in range whenever
    the second branch is reached. *)
Definition IsBusy (a : App.t) : bool :=
  if bool_decide (length (App.Messages a) = 0) then false
  else
    match App.Messages a !! (length (App.Messages a) - 1) with
    | Some lastMessage =>
        isNil (MessageTime.Completed
                 (MessageMetadata.Time (MessageInfo.Metadata lastMessage)))
    | None => false
    end.

(** ** Sessions and sending *)

(** [CreateSession] (lines 295-305), on the outcome of the request. *)
Definition CreateSession (creation : Outcome PostSessionCreateResponse.t)
  : M (option SessionInfo.t * option error) :=
  let '(resp, err) := creation in
  emit (EvRequest PostSessionCreate) ;!
  match err with
  | Some e => ret (None, Some e)
  | None =>
      match resp with
      | Some r =>
          if bool_decide (PostSessionCreateResponse.StatusCode r ≠ 200%Z)
          then ret (None,
                    Some ("failed to create session: "
                            +:+ fmt_d (PostSessionCreateResponse.StatusCode r)))
          else ret (PostSessionCreateResponse.JSON200 r, None)
      | None => lift Panic
      end
  end.

(** What the surroundings supply to one call of [SendChatMessage]: the
    outcome of the session creation, should it be requested, and the two
    readings of the clock. *)
Record SendEnv := {
  creation : Outcome PostSessionCreateResponse.t;
  now_UnixNano : Z;
  now_Unix : Z
}.

(** Lines 308-316: the lazy creation.  [inl] is the early return. *)
Definition ensureSession (a : App.t) (env : SendEnv)
  : M (Cmd + App.t * list Cmd) :=
  current ←! lift (deref (App.Session a));
  if decide (SessionInfo.Id current = "")
  then
    created ←! CreateSession (creation env);
    let '(session, err) := created in
    match err with
    | Some e => ret (inl (NewErrorToast e))
    | None =>
        emit (EvSetSession session) ;!
        ret (inr (App.with_Session a session,
                  [CmdHandler (SessionSelectedMsg session)]))
    end
  else ret (inr (a, [])).

(** [SendChatMessage] (lines 307-367): the new [App] and the command
    returned. *)
Definition SendChatMessage (a : App.t) (env : SendEnv) (text : string)
    (attachments : list Attachment.t) : M (App.t * Cmd) :=
  started ←! ensureSession a env;
  match started with
  | inl toast => ret (a, toast)
  | inr (a, cmds) =>
      let part :=
        FromMessagePartText
          {| MessagePartText.Type_ := "text"; MessagePartText.Text := text |} in
      let parts := [part] in
      session ←! lift (deref (App.Session a));
      let optimisticMessage :=
        {| MessageInfo.Id := "optimistic-" +:+ fmt_d (now_UnixNano env);
           MessageInfo.Role := User;
           MessageInfo.Parts := parts;
           MessageInfo.Metadata :=
             {| MessageMetadata.SessionID := SessionInfo.Id session;
                MessageMetadata.Time :=
                  {| MessageTime.Completed := None;
                     MessageTime.Created := float32_of_int64 (now_Unix env) |};
                MessageMetadata.Tool := ∅ |} |} in
      emit (EvAppendMessage optimisticMessage) ;!
      let a := App.with_Messages a (App.Messages a ++ [optimisticMessage])%list in
      let cmds :=
        (cmds ++ [CmdHandler (OptimisticMessageAddedMsg optimisticMessage)])%list in
      let cmds := (cmds ++ [PostChat parts])%list in
      ret (a, Batch cmds)
  end.

(** The request body the closure of lines 344-362 builds when it runs, from
    the [App] as it is then. *)
Definition chatBody (a : App.t) (parts : list MessagePart)
  : Run PostSessionChatJSONRequestBody.t :=
  match deref (App.Session a), deref (App.Provider a), deref (App.Model a) with
  | Done session, Done provider, Done model =>
      Done {| PostSessionChatJSONRequestBody.SessionID := SessionInfo.Id session;
              PostSessionChatJSONRequestBody.Parts := parts;
              PostSessionChatJSONRequestBody.ProviderID := ProviderInfo.Id provider;
              PostSessionChatJSONRequestBody.ModelID := ModelInfo.Id model |}
  | _, _, _ => Panic
  end.

(** Running the closure of lines 344-362; [sent] is the outcome of the
    request, a response being known by its status code. *)
Definition runPostChat (a : App.t) (parts : list MessagePart)
    (sent : Outcome Z) : M (option Msg) :=
  let '(response, err) := sent in
  body ←! lift (chatBody a parts);
  emit (EvRequest (PostSessionChat body)) ;!
  match err with
  | Some e =>
      let errormsg := "failed to send message: " +:+ e in
      slog_Error errormsg [] ;!
      ret (Some (ErrorToastMsg errormsg))
  | None =>
      match response with
      | Some StatusCode =>
          if bool_decide (StatusCode ≠ 200%Z)
          then
            let errormsg := "failed to send message: " +:+ fmt_d StatusCode in
            slog_Error errormsg [] ;!
            ret (Some (ErrorToastMsg errormsg))
          else ret None
      | None => ret None
      end
  end.

(** The request bodies a command sends when it is run on [a]. *)
Fixpoint payloads (a : App.t) (c : Cmd)
  : list (Run PostSessionChatJSONRequestBody.t) :=
  match c with
  | PostChat parts => [chatBody a parts]
  | Batch cmds => concat (map (payloads a) cmds)
  | CmdHandler _ | NewErrorToast _ => []
  end.

(** ** Listing sessions *)

(** The comparison handed to [sort.Slice] (lines 399-401). *)
Definition created_less (x y : SessionInfo.t) : bool :=
  (SessionInfo.Created x - SessionInfo.Created y >? 0)%Z.

Section Listing.

(** [sort.Slice] of the Go library, on the elements of the slice. *)
Variable sort_Slice :
  (SessionInfo.t → SessionInfo.t → bool) → list SessionInfo.t → list SessionInfo.t.

(** [ListSessions] (lines 386-404), on the outcome of the request.  The
    nil slice of the failing returns is the empty list. *)
Definition ListSessions (listing : Outcome PostSessionListResponse.t)
  : M (list SessionInfo.t * option error) :=
  let '(resp, err) := listing in
  emit (EvRequest PostSessionList) ;!
  match err with
  | Some e => ret ([], Some e)
  | None =>
      r ←! lift (deref resp);
      if bool_decide (PostSessionListResponse.StatusCode r ≠ 200%Z)
      then ret ([],
                Some ("failed to list sessions: "
                        +:+ fmt_d (PostSessionListResponse.StatusCode r)))
      else
        match PostSessionListResponse.JSON200 r with
        | None => ret ([], None)
        | Some sessions => ret (sort_Slice created_less sessions, None)
        end
  end.

End Listing.

(** Two sorting functions on a comparison [less]: insertion from the
    right, which keeps elements that compare equal in their order, and
    the same on the reversed input, which reverses them. *)
Fixpoint insert_by {A} (less : A → A → bool) (x : A) (l : list A) : list A :=
  match l with
  | [] => [x]
  | y :: l' => if less y x then y :: insert_by less x l' else x :: l
  end.

Definition insertion_sort {A} (less : A → A → bool) (l : list A) : list A :=
  foldr (insert_by less) [] l.

Definition reversing_sort {A} (less : A → A → bool) (l : list A) : list A :=
  insertion_sort less (reverse l).

(** The two ways in which the session creation fails, with the error
    [CreateSession] reports. *)
Inductive CreateFails : Outcome PostSessionCreateResponse.t → error → Prop :=
| fails_transport resp e : CreateFails (resp, Some e) e
| fails_status r :
    PostSessionCreateResponse.StatusCode r ≠ 200%Z →
    CreateFails (Some r, None)
      ("failed to create session: "
         +:+ fmt_d (PostSessionCreateResponse.StatusCode r)).

(** The request bodies dispatched by the command a send returns. *)
Definition dispatched (sent : M (App.t * Cmd))
  : list (Run PostSessionChatJSONRequestBody.t) :=
  match sent.2 with
  | Done (a, cmd) => payloads a cmd
  | Panic => []
  end.

(** The optimistic message of lines 325-339. *)
Definition optimistic (env : SendEnv) (SessionID text : string)
  : MessageInfo.t :=
  {| MessageInfo.Id := "optimistic-" +:+ fmt_d (now_UnixNano env);
     MessageInfo.Role := User;
     MessageInfo.Parts :=
       [FromMessagePartText
          {| MessagePartText.Type_ := "text";
             MessagePartText.Text := text |}];
     MessageInfo.Metadata :=
       {| MessageMetadata.SessionID := SessionID;
          MessageMetadata.Time :=
            {| MessageTime.Completed := None;
               MessageTime.Created := float32_of_int64 (now_Unix env) |};
          MessageMetadata.Tool := ∅ |} |}.

(** What [sort.Slice] requires of its comparison: a strict weak
    ordering. *)
Record StrictWeak {A} (less : A → A → bool) : Prop := {
  less_irrefl : ∀ x, less x x = false;
  less_trans : ∀ x y z, less x y = true → less y z = true → less x z = true;
  less_incomparable :
    ∀ x y z, less x y = false → less y z = false → less x z = false
}.

(** What the Go library documents for [sort.Slice]: the slice is
    rearranged, and for such a comparison no element is less than one
    before it.  The library states that the sort is not guaranteed to be
    stable; nothing is assumed about elements that compare equal. *)
Definition SortsSlices
    (sort_Slice : (SessionInfo.t → SessionInfo.t → bool)
                  → list SessionInfo.t → list SessionInfo.t) : Prop :=
  ∀ less l,
    sort_Slice less l ≡ₚ l
    ∧ (StrictWeak less →
       StronglySorted (λ x y, less y x = false) (sort_Slice less l)).

(** Sessions created at the same time keep their order. *)
Definition stable_on (input output : list SessionInfo.t) : Prop :=
  ∀ t : Z,
    filter (λ s, SessionInfo.Created s = t) output
    = filter (λ s, SessionInfo.Created s = t) input.

(** ** The rest of app.go: start-up and the session life cycle *)

(** *** Library functions *)

(** [strings.Split(s, sep)] for a separator of one character, as app.go
    calls it: the pieces between the separators, one more than there are
    separators. *)
Fixpoint strings_Split (s : string) (sep : Ascii.ascii) : list string :=
  match s with
  | EmptyString => [""]
  | String c rest =>
      if Ascii.eqb c sep then "" :: strings_Split rest sep
      else
        match strings_Split rest sep with
        | piece :: pieces => String c piece :: pieces
        | [] => [String c ""]
        end
  end.

(** [strings.Join(elems, sep)]. *)
Fixpoint strings_Join (elems : list string) (sep : string) : string :=
  match elems with
  | [] => ""
  | x :: rest =>
      match rest with
      | [] => x
      | _ :: _ => x +:+ sep +:+ strings_Join rest sep
      end
  end.

(** The character of "/". *)
Definition slash : Ascii.ascii :=
  Ascii.Ascii true true true true false true false false.

(** Whether a character occurs in a string. *)
Fixpoint occurs (c : Ascii.ascii) (s : string) : bool :=
  match s with
  | EmptyString => false
  | String d rest => Ascii.eqb d c || occurs c rest
  end.

(** *** Further types of the client and of the collaborating packages *)

Module ConfigKeybinds.
  (** Modelled from the spec: the generated type [client.ConfigKeybinds]
      is not part of the sources at hand; app.go sets its [Leader]. *)
Record t := { Leader : option string }.
End ConfigKeybinds.

Module ConfigInfo.
  (** Modelled from the spec: the generated type [client.ConfigInfo] is
      not part of the sources at hand; the configuration carries keybinds,
      a model and a theme, each optional ([configInfo.Keybinds],
      [configInfo.Model], [configInfo.Theme] in app.go). *)
Record t := {
  Keybinds : option ConfigKeybinds.t;
  Theme : option string;
  Model : option string
}.

Definition with_Keybinds (c : t) (k : option ConfigKeybinds.t) : t :=
  {| Keybinds := k; Theme := Theme c; Model := Model c |}.
End ConfigInfo.

Module PostConfigGetResponse.
Record t := { StatusCode : Z; JSON200 : option ConfigInfo.t }.
End PostConfigGetResponse.

Module PostSessionMessagesResponse.
Record t := { StatusCode : Z; JSON200 : option (list MessageInfo.t) }.
End PostSessionMessagesResponse.

Module PostSessionInitializeJSONRequestBody.
Record t := { SessionID : string; ProviderID : string; ModelID : string }.
End PostSessionInitializeJSONRequestBody.

Module AppInfo.
  (** [appInfo.Path]: the directories app.go reads. *)
Record t := { Root : string; State : string; Config : string; Cwd : string }.
End AppInfo.

Module Terminal.
  (** [styles.Terminal], as far as app.go reads it. *)
Record t := { Background : string; BackgroundIsDark : bool }.
End Terminal.

(** *** A second trace: the remaining requests and effects *)

Inductive Call :=
| PostConfigGet
| PostAppInitialize
| PostSessionInitialize (body : PostSessionInitializeJSONRequestBody.t)
| PostSessionAbort (SessionID : string)
| PostSessionDelete (SessionID : string)
| PostSessionMessages (SessionID : string).

(** The body of the goroutine [InitializeProject] starts. *)
Inductive Task :=
| InitializeTask.

Inductive Effect :=
| Traced (e : Event)                          (* an event of the first trace *)
| Called (c : Call)                           (* a request of the client *)
| SetRootPath (root : string)                 (* RootPath = ... *)
| LoadState (path : string)                   (* config.LoadState(path) *)
| SaveState (path : string) (state : State.t) (* config.SaveState(path, state) *)
| LoadThemes (config root cwd : string)       (* theme.LoadThemesFromDirectories *)
| UpdateSystemTheme (terminal : Terminal.t)   (* theme.UpdateSystemTheme *)
| SetTheme (name : string)                    (* theme.SetTheme(name) *)
| LogConfig (config : ConfigInfo.t)           (* slog.Debug("Loaded config", ...) *)
| Go (task : Task).                           (* go func() { ... }() *)

Definition W (A : Type) : Type := list Effect * Run A.

Definition wret {A} (a : A) : W A := ([], Done a).

Definition wbind {A B} (m : W A) (f : A → W B) : W B :=
  match m with
  | (t, Done a) => let '(t', r) := f a in ((t ++ t')%list, r)
  | (t, Panic) => (t, Panic)
  end.

Definition effect (e : Effect) : W unit := ([e], Done tt).

Definition wlift {A} (r : Run A) : W A := ([], r).

(** A computation of the first kind, inside the second. *)
Definition traced {A} (m : M A) : W A := (Traced <$> m.1, m.2).

Notation "x ←@ m ; k" := (wbind m (fun x => k))
  (at level 100, m at next level, right associativity, only parsing).
Notation "m ;@ k" := (wbind m (fun _ => k))
  (at level 100, k at level 200, right associativity, only parsing).

Definition wlog (level : Level) (msg : string) (attrs : list (string * string))
  : W unit :=
  effect (Traced (EvLog level msg attrs)).

(** *** [New] *)

(** [State] with the fields [New] assigns. *)
Definition with_Theme (s : State.t) (theme : string) : State.t :=
  {| State.Provider := State.Provider s; State.Model := State.Model s;
     State.Theme := theme |}.

Definition with_Selection (s : State.t) (provider model : string) : State.t :=
  {| State.Provider := provider; State.Model := model;
     State.Theme := State.Theme s |}.

(** What the surroundings supply to [New]: the outcome of the
    configuration request, the joined state path, the outcome of
    [config.LoadState], the value of [config.NewState()], the error of
    the theme loading and [styles.Terminal]. *)
Record NewEnv := {
  configGet : Outcome PostConfigGetResponse.t;
  statePath : string;
  loadState : Outcome State.t;
  newState : State.t;
  loadThemes : option error;
  terminal : option Terminal.t
}.

(** The [App] that [New] builds: the fields of [App.t], and the ones only
    [New] sets.  [Client] and [Commands], handles to collaborators, are
    left out. *)
Record NewApp := {
  app : App.t;
  Info : AppInfo.t;
  Version : string;
  StatePath : string;
  Config : ConfigInfo.t
}.

(** Lines 73-79. *)
Definition defaultKeybinds (configInfo : ConfigInfo.t) : ConfigInfo.t :=
  match ConfigInfo.Keybinds configInfo with
  | None =>
      let leader := "ctrl+x" in
      let keybinds := {| ConfigKeybinds.Leader := Some leader |} in
      ConfigInfo.with_Keybinds configInfo (Some keybinds)
  | Some _ => configInfo
  end.

(** Lines 81-86. *)
Definition startState (env : NewEnv) : W (option State.t) :=
  let appStatePath := statePath env in
  effect (LoadState appStatePath) ;@
  let '(appState, err) := loadState env in
  match err with
  | Some _ =>
      let appState := newState env in
      effect (SaveState appStatePath appState) ;@
      wret (Some appState)
  | None => wret appState
  end.

(** Lines 88-95. *)
Definition applyConfig (configInfo : ConfigInfo.t) (appState : option State.t)
  : Run (option State.t) :=
  match
    match ConfigInfo.Theme configInfo with
    | Some theme =>
        match deref appState with
        | Done s => Done (Some (with_Theme s theme))
        | Panic => Panic
        end
    | None => Done appState
    end
  with
  | Done appState =>
      match ConfigInfo.Model configInfo with
      | Some model =>
          let splits := strings_Split model slash in
          match deref (head splits), deref appState with
          | Done provider, Done s =>
              Done (Some (with_Selection s provider
                            (strings_Join (tail splits) "/")))
          | _, _ => Panic
          end
      | None => Done appState
      end
  | Panic => Panic
  end.

(** Lines 106-114. *)
Definition startTheme (env : NewEnv) (appState : State.t) : W unit :=
  if decide (State.Theme appState ≠ "")
  then
    (if decide (State.Theme appState = "system")
     then match terminal env with
          | Some t => effect (UpdateSystemTheme t)
          | None => wret tt
          end
     else wret tt) ;@
    effect (SetTheme (State.Theme appState))
  else wret tt.

(** [New] (lines 57-131): the [App] and the error returned.  The calls
    into the packages [config], [theme] and [commands] are taken to
    return. *)
Definition New (version : string) (appInfo : AppInfo.t) (env : NewEnv)
  : W (option NewApp * option error) :=
  effect (SetRootPath (AppInfo.Root appInfo)) ;@
  effect (Called PostConfigGet) ;@
  let '(configResponse, err) := configGet env in
  match err with
  | Some e => wret (None, Some e)
  | None =>
      r ←@ wlift (deref configResponse);
      if bool_decide (PostConfigGetResponse.StatusCode r ≠ 200%Z)
         || isNil (PostConfigGetResponse.JSON200 r)
      then wret (None,
                 Some ("failed to get config: "
                         +:+ fmt_d (PostConfigGetResponse.StatusCode r)))
      else
        configInfo ←@ wlift (deref (PostConfigGetResponse.JSON200 r));
        let configInfo := defaultKeybinds configInfo in
        appState ←@ startState env;
        appState ←@ wlift (applyConfig configInfo appState);
        effect (LoadThemes (AppInfo.Config appInfo) (AppInfo.Root appInfo)
                           (AppInfo.Cwd appInfo)) ;@
        match loadThemes env with
        | Some e =>
            wlog LevelWarn "Failed to load themes from directories"
                 [("error", e)]
        | None => wret tt
        end ;@
        appState ←@ wlift (deref appState);
        startTheme env appState ;@
        effect (LogConfig configInfo) ;@
        wret (Some {| app := {| App.State := appState;
                                App.Provider := None;
                                App.Model := None;
                                App.Session := Some SessionInfo.zero;
                                App.Messages := [] |};
                      Info := appInfo;
                      Version := version;
                      StatePath := statePath env;
                      Config := configInfo |},
              None)
  end.

(** *** The session life cycle *)

(** [InitializeProject] (lines 235-264), up to the start of the
    goroutine: the new [App] and the command returned, [None] for nil. *)
Definition InitializeProject (a : App.t)
    (creation : Outcome PostSessionCreateResponse.t)
  : W (App.t * option Cmd) :=
  created ←@ traced (CreateSession creation);
  let '(session, err) := created in
  match err with
  | Some _ => wret (a, None)
  | None =>
      effect (Traced (EvSetSession session)) ;@
      let a := App.with_Session a session in
      let cmds := [CmdHandler (SessionSelectedMsg session)] in
      effect (Go InitializeTask) ;@
      wret (a, Some (Batch cmds))
  end.

(** The goroutine of lines 247-261, run on the [App] as it is then;
    [sent] is the outcome of the request, a response being known by its
    status code. *)
Definition runInitialize (a : App.t) (sent : Outcome Z) : W unit :=
  let '(response, err) := sent in
  match deref (App.Session a), deref (App.Provider a), deref (App.Model a) with
  | Done session, Done provider, Done model =>
      effect (Called (PostSessionInitialize
                {| PostSessionInitializeJSONRequestBody.SessionID :=
                     SessionInfo.Id session;
                   PostSessionInitializeJSONRequestBody.ProviderID :=
                     ProviderInfo.Id provider;
                   PostSessionInitializeJSONRequestBody.ModelID :=
                     ModelInfo.Id model |})) ;@
      match err with
      | Some e => wlog LevelError "Failed to initialize project" [("error", e)]
      | None => wret tt
      end ;@
      match response with
      | Some StatusCode =>
          if bool_decide (StatusCode ≠ 200%Z)
          then wlog LevelError "Failed to initialize project"
                    [("error", fmt_d StatusCode)]
          else wret tt
      | None => wret tt
      end
  | _, _, _ => wlift Panic
  end.

(** [MarkProjectInitialized] (lines 283-293). *)
Definition MarkProjectInitialized (sent : Outcome Z) : W (option error) :=
  let '(response, err) := sent in
  effect (Called PostAppInitialize) ;@
  match err with
  | Some e =>
      wlog LevelError "Failed to mark project as initialized" [("error", e)] ;@
      wret (Some e)
  | None =>
      match response with
      | Some StatusCode =>
          if bool_decide (StatusCode ≠ 200%Z)
          then wret (Some ("failed to initialize project: " +:+ fmt_d StatusCode))
          else wret None
      | None => wret None
      end
  end.

(** [Cancel] (lines 369-384). *)
Definition Cancel (sessionID : string) (sent : Outcome Z) : W (option error) :=
  let '(response, err) := sent in
  effect (Called (PostSessionAbort sessionID)) ;@
  match err with
  | Some e =>
      wlog LevelError "Failed to cancel session" [("error", e)] ;@
      wret (Some e)
  | None =>
      match response with
      | Some StatusCode =>
          if bool_decide (StatusCode ≠ 200%Z)
          then
            wlog LevelError "Failed to cancel session"
                 [("error", "failed to cancel session: " +:+ fmt_d StatusCode)] ;@
            wret (Some ("failed to cancel session: " +:+ fmt_d StatusCode))
          else wret None
      | None => wret None
      end
  end.

(** [DeleteSession] (lines 406-417); the response is known by its status
    code. *)
Definition DeleteSession (sessionID : string) (sent : Outcome Z)
  : W (option error) :=
  let '(resp, err) := sent in
  effect (Called (PostSessionDelete sessionID)) ;@
  match err with
  | Some e => wret (Some e)
  | None =>
      StatusCode ←@ wlift (deref resp);
      if bool_decide (StatusCode ≠ 200%Z)
      then wret (Some ("failed to delete session: " +:+ fmt_d StatusCode))
      else wret None
  end.

(** [ListMessages] (lines 419-432).  The nil slice of the failing returns
    is the empty list. *)
Definition ListMessages (sessionId : string)
    (listing : Outcome PostSessionMessagesResponse.t)
  : W (list MessageInfo.t * option error) :=
  let '(resp, err) := listing in
  effect (Called (PostSessionMessages sessionId)) ;@
  match err with
  | Some e => wret ([], Some e)
  | None =>
      r ←@ wlift (deref resp);
      if bool_decide (PostSessionMessagesResponse.StatusCode r ≠ 200%Z)
      then wret ([],
                 Some ("failed to list messages: "
                         +:+ fmt_d (PostSessionMessagesResponse.StatusCode r)))
      else
        match PostSessionMessagesResponse.JSON200 r with
        | None => wret ([], None)
        | Some messages => wret (messages, None)
        end
  end.

(** [ListProviders] (lines 434-448). *)
Definition ListProviders (listing : Outcome PostProviderListResponse.t)
  : M (list ProviderInfo.t * option error) :=
  let '(resp, err) := listing in
  emit (EvRequest PostProviderList) ;!
  match err with
  | Some e => ret ([], Some e)
  | None =>
      r ←! lift (deref resp);
      if bool_decide (PostProviderListResponse.StatusCode r ≠ 200%Z)
      then ret ([],
                Some ("failed to list sessions: "
                        +:+ fmt_d (PostProviderListResponse.StatusCode r)))
      else
        match PostProviderListResponse.JSON200 r with
        | None => ret ([], None)
        | Some providers => ret (ProviderList.Providers providers, None)
        end
  end.

(** What the seeding loop keeps: a default provider comes from the
    providers [known], and a default model is what [getDefaultModel]
    gave for that provider. *)
Definition seeded
    (rangeModels : RangeSite → gmap string ModelInfo.t
                   → list (string * ModelInfo.t))
    (response : ProviderList.t) (known : list ProviderInfo.t)
    (defaultProvider : option ProviderInfo.t)
    (defaultModel : option ModelInfo.t) : Prop :=
  match defaultProvider with
  | Some p =>
      p ∈ known
      ∧ ∀ m, defaultModel = Some m →
             ∃ site, getDefaultModel rangeModels site response p = Some m
  | None => defaultModel = None
  end.

(** The writes of the persisted state in a trace. *)
Definition saves (t : list Effect) : list (string * State.t) :=
  omap (λ e, match e with
             | SaveState path state => Some (path, state)
             | _ => None
             end) t.

(** The themes set in a trace. *)
Definition themes_set (t : list Effect) : list string :=
  omap (λ e, match e with
             | SetTheme name => Some name
             | _ => None
             end) t.

(** The terminal colours handed to [theme.UpdateSystemTheme] in a
    trace. *)
Definition system_themes (t : list Effect) : list Terminal.t :=
  omap (λ e, match e with
             | UpdateSystemTheme terminal => Some terminal
             | _ => None
             end) t.

(** ** Concrete inputs *)

Definition claude3 : ModelInfo.t :=
  {| ModelInfo.Id := "claude-3"; ModelInfo.Name := "Claude 3" |}.

Definition gpt4 : ModelInfo.t :=
  {| ModelInfo.Id := "gpt-4"; ModelInfo.Name := "GPT-4" |}.

Definition anthropic_full : ProviderInfo.t :=
  {| ProviderInfo.Id := "anthropic";
     ProviderInfo.Models := {[ "claude-3" := claude3 ]} |}.

(** A provider "anthropic" without models. *)
Definition anthropic_bare : ProviderInfo.t :=
  {| ProviderInfo.Id := "anthropic"; ProviderInfo.Models := ∅ |}.

Definition openai_full : ProviderInfo.t :=
  {| ProviderInfo.Id := "openai";
     ProviderInfo.Models := {[ "gpt-4" := gpt4 ]} |}.

Definition openai_bare : ProviderInfo.t :=
  {| ProviderInfo.Id := "openai"; ProviderInfo.Models := ∅ |}.

(** The listing of the scenario: openai, then anthropic, and a default
    for anthropic. *)
Definition listing_scenario : ProviderList.t :=
  {| ProviderList.Default := {[ "anthropic" := "claude-3" ]};
     ProviderList.Providers := [openai_bare; anthropic_full] |}.

(** "anthropic" is listed, without models and without a default. *)
Definition listing_bare_anthropic : ProviderList.t :=
  {| ProviderList.Default := ∅;
     ProviderList.Providers := [openai_full; anthropic_bare] |}.

(** Listings without "anthropic". *)
Definition mistral_bare : ProviderInfo.t :=
  {| ProviderInfo.Id := "mistral"; ProviderInfo.Models := ∅ |}.

Definition listing_first_without_model : ProviderList.t :=
  {| ProviderList.Default := ∅;
     ProviderList.Providers := [mistral_bare; openai_full] |}.

Definition listing_first_with_model : ProviderList.t :=
  {| ProviderList.Default := ∅;
     ProviderList.Providers := [openai_full; mistral_bare] |}.

(** No provider has a model or a default. *)
Definition listing_no_models : ProviderList.t :=
  {| ProviderList.Default := ∅;
     ProviderList.Providers := [mistral_bare; openai_bare] |}.

Definition listing_empty : ProviderList.t :=
  {| ProviderList.Default := ∅; ProviderList.Providers := [] |}.

(** The state of a first start, and an [App] as [New] builds it. *)
Definition fresh_state : State.t :=
  {| State.Provider := ""; State.Model := ""; State.Theme := "" |}.

Definition fresh_app : App.t :=
  {| App.State := fresh_state; App.Provider := None; App.Model := None;
     App.Session := Some SessionInfo.zero; App.Messages := [] |}.


(** An [App] with a selection and no session yet. *)
Definition ready_app : App.t :=
  {| App.State := fresh_state;
     App.Provider := Some anthropic_full; App.Model := Some claude3;
     App.Session := Some SessionInfo.zero; App.Messages := [] |}.

Definition session1 : SessionInfo.t :=
  {| SessionInfo.Id := "ses_1"; SessionInfo.Created := 1750000000 |}.

(** The service creates [session1]. *)
Definition env_created : SendEnv :=
  {| creation :=
       (Some {| PostSessionCreateResponse.StatusCode := 200;
                PostSessionCreateResponse.JSON200 := Some session1 |}, None);
     now_UnixNano := 1750000001123456789;
     now_Unix := 1750000001 |}.

(** The service answers the creation with status 500. *)
Definition env_refused : SendEnv :=
  {| creation :=
       (Some {| PostSessionCreateResponse.StatusCode := 500;
                PostSessionCreateResponse.JSON200 := None |}, None);
     now_UnixNano := 1750000001123456789;
     now_Unix := 1750000001 |}.

Definition notes_txt : Attachment.t :=
  {| Attachment.FilePath := "/tmp/notes.txt";
     Attachment.FileName := "notes.txt";
     Attachment.MimeType := "text/plain";
     Attachment.Content := [Byte.x68; Byte.x69] |}.

(** Sessions created at 5, 1 and 9, and two created at 5. *)
Definition ses_a : SessionInfo.t :=
  {| SessionInfo.Id := "a"; SessionInfo.Created := 5 |}.
Definition ses_b : SessionInfo.t :=
  {| SessionInfo.Id := "b"; SessionInfo.Created := 1 |}.
Definition ses_c : SessionInfo.t :=
  {| SessionInfo.Id := "c"; SessionInfo.Created := 9 |}.
Definition ses_d : SessionInfo.t :=
  {| SessionInfo.Id := "d"; SessionInfo.Created := 5 |}.

Definition sessions_listed (sessions : option (list SessionInfo.t))
  : PostSessionListResponse.t :=
  {| PostSessionListResponse.StatusCode := 200;
     PostSessionListResponse.JSON200 := sessions |}.

(** The scenario as the specification writes it: the two providers
    without models. *)
Definition listing_scenario_literal : ProviderList.t :=
  {| ProviderList.Default := {[ "anthropic" := "claude-3" ]};
     ProviderList.Providers := [openai_bare; anthropic_bare] |}.

(** The service answers the creation with status 200 and no decoded
    session. *)
Definition env_no_body : SendEnv :=
  {| creation :=
       (Some {| PostSessionCreateResponse.StatusCode := 200;
                PostSessionCreateResponse.JSON200 := None |}, None);
     now_UnixNano := 1750000001123456789;
     now_Unix := 1750000001 |}.

(** A later send: the clock has moved on, a creation would be
    refused. *)
Definition env_later : SendEnv :=
  {| creation :=
       (Some {| PostSessionCreateResponse.StatusCode := 500;
                PostSessionCreateResponse.JSON200 := None |}, None);
     now_UnixNano := 1750000007000000001;
     now_Unix := 1750000007 |}.

(** What the first send from [ready_app] leaves: the message, the [App]
    and the commands. *)
Definition sent_message : MessageInfo.t :=
  optimistic env_created "ses_1" "hi".

Definition sent_app : App.t :=
  App.with_Messages (App.with_Session ready_app (Some session1))
    [sent_message].

Definition sent_cmds : list Cmd :=
  [CmdHandler (SessionSelectedMsg (Some session1));
   CmdHandler (OptimisticMessageAddedMsg sent_message);
   PostChat (MessageInfo.Parts sent_message)].

Definition sent_trace : list Event :=
  [EvRequest PostSessionCreate; EvSetSession (Some session1);
   EvAppendMessage sent_message].

(** A start-up: the configuration names a theme and a model, no state
    has been stored yet. *)
Definition config_openai : ConfigInfo.t :=
  {| ConfigInfo.Keybinds := None;
     ConfigInfo.Theme := Some "system";
     ConfigInfo.Model := Some "openai/gpt-4" |}.

Definition black_terminal : Terminal.t :=
  {| Terminal.Background := "#000000"; Terminal.BackgroundIsDark := true |}.

Definition start_info : AppInfo.t :=
  {| AppInfo.Root := "/work"; AppInfo.State := "/state";
     AppInfo.Config := "/config"; AppInfo.Cwd := "/work/src" |}.

Definition start_env : NewEnv :=
  {| configGet :=
       (Some {| PostConfigGetResponse.StatusCode := 200;
                PostConfigGetResponse.JSON200 := Some config_openai |},
        None);
     statePath := "/state/tui";
     loadState := (None, Some "open /state/tui: no such file or directory");
     newState := fresh_state;
     loadThemes := None;
     terminal := Some black_terminal |}.

Definition started : NewApp :=
  {| app := {| App.State := {| State.Provider := "openai";
                               State.Model := "gpt-4";
                               State.Theme := "system" |};
               App.Provider := None; App.Model := None;
               App.Session := Some SessionInfo.zero; App.Messages := [] |};
     Info := start_info;
     Version := "0.1.0";
     StatePath := "/state/tui";
     Config := defaultKeybinds config_openai |}.

Definition start_trace : list Effect :=
  [SetRootPath "/work"; Called PostConfigGet; LoadState "/state/tui";
   SaveState "/state/tui" fresh_state;
   LoadThemes "/config" "/work" "/work/src";
   UpdateSystemTheme black_terminal; SetTheme "system";
   LogConfig (defaultKeybinds config_openai)].

(** * Properties *)

(** ** The conversion to [float32] *)

Lemma float32_of_int64_exact n :
  (Z.abs n < 2 ^ 24)%Z → float32_of_int64 n = n.
Proof.
  intros H. unfold float32_of_int64.
  by rewrite (proj2 (Z.ltb_lt _ _) H).
Qed.

(** Beyond 24 bits the conversion is off by at most half a unit in the
    last place. *)
Lemma float32_of_int64_near n :
  (2 ^ 24 ≤ Z.abs n)%Z →
  (Z.abs (float32_of_int64 n - n) ≤ 2 ^ (Z.log2 (Z.abs n) - 24))%Z.
Proof.
  intros H. unfold float32_of_int64.
  rewrite (proj2 (Z.ltb_ge _ _) H).
  assert (L : (24 ≤ Z.log2 (Z.abs n))%Z).
  { change 24%Z with (Z.log2 (2 ^ 24)). by apply Z.log2_le_mono. }
  set (a := Z.abs n) in *. set (e := (Z.log2 a - 23)%Z).
  replace (Z.log2 a - 24)%Z with (e - 1)%Z by (unfold e; lia).
  set (h := (2 ^ (e - 1))%Z).
  assert (P : (2 ^ e = 2 * h)%Z).
  { unfold h. rewrite <- Z.pow_succ_r by (unfold e; lia).
    f_equal. lia. }
  assert (Hh : (0 < h)%Z) by (apply Z.pow_pos_nonneg; unfold e; lia).
  rewrite P.
  pose proof (Z.div_mod a (2 * h) ltac:(lia)) as D.
  pose proof (Z.mod_pos_bound a (2 * h) ltac:(lia)) as B.
  set (q := (a / (2 * h))%Z) in *. set (r := (a mod (2 * h))%Z) in *.
  assert (Hq : (0 ≤ q)%Z) by (apply Z.div_pos; lia).
  destruct ((h <? r)%Z || ((r =? h)%Z && Z.odd q)) eqn:C.
  - assert (h ≤ r)%Z.
    { apply orb_true_iff in C as [C|C].
      - apply Z.ltb_lt in C. lia.
      - apply andb_true_iff in C as [C _]. apply Z.eqb_eq in C. lia. }
    destruct (Z.sgn_spec n) as [[? ->]|[[? ->]|[? ->]]]; unfold a in *; nia.
  - assert (r ≤ h)%Z.
    { apply orb_false_iff in C as [C _]. apply Z.ltb_ge in C. lia. }
    destruct (Z.sgn_spec n) as [[? ->]|[[? ->]|[? ->]]]; unfold a in *; nia.
Qed.

(** ** Resolution *)

Section ResolutionFacts.

Variable rangeModels :
  RangeSite → gmap string ModelInfo.t → list (string * ModelInfo.t).
Hypothesis rangeModels_perm :
  ∀ site m, rangeModels site m ≡ₚ map_to_list m.


Lemma rangeModels_nil site m : rangeModels site m = [] ↔ m = ∅.
Proof.
  rewrite <- map_to_list_empty_iff. split; intros E.
  - apply Permutation_nil_r. rewrite <- E. symmetry. apply rangeModels_perm.
  - apply Permutation_nil_r. rewrite <- E. apply rangeModels_perm.
Qed.

Lemma rangeModels_elem site m k v :
  (k, v) ∈ rangeModels site m ↔ m !! k = Some v.
Proof. rewrite rangeModels_perm. apply elem_of_map_to_list. Qed.

(** *** [getDefaultModel rangeModels] *)

Lemma getDefaultModel_entry site response provider k :
  ProviderList.Default response !! ProviderInfo.Id provider = Some k →
  getDefaultModel rangeModels site response provider
  = Some (default ModelInfo.zero (ProviderInfo.Models provider !! k)).
Proof. intros E. unfold getDefaultModel. by rewrite E. Qed.

Lemma getDefaultModel_ranged site response provider m :
  ProviderList.Default response !! ProviderInfo.Id provider = None →
  getDefaultModel rangeModels site response provider = Some m →
  ∃ k, ProviderInfo.Models provider !! k = Some m.
Proof.
  intros E. unfold getDefaultModel. rewrite E.
  destruct (rangeModels site _) as [|[k v] l] eqn:R; [done|].
  intros [= <-]. exists k. apply (rangeModels_elem site).
  rewrite R. left.
Qed.

Lemma getDefaultModel_None site response provider :
  getDefaultModel rangeModels site response provider = None
  ↔ ¬ yieldsModel response provider.
Proof.
  unfold getDefaultModel, yieldsModel.
  destruct (ProviderList.Default response !! _) as [k|] eqn:E.
  - split; [done|]. intros H. destruct H. left. by eexists.
  - destruct (rangeModels site _) as [|[k v] l] eqn:R.
    + apply rangeModels_nil in R. split; [|done].
      intros _ [[? ?]|H]; [done|]. by apply H.
    + split; [done|]. intros H. destruct H. right. intros E0.
      apply (rangeModels_nil site) in E0. by rewrite E0 in R.
Qed.

Lemma getDefaultModel_Some site response provider :
  is_Some (getDefaultModel rangeModels site response provider)
  ↔ yieldsModel response provider.
Proof.
  destruct (getDefaultModel rangeModels site response provider) as [m|] eqn:E.
  - split; [|by eexists]. intros _.
    destruct (ProviderList.Default response !! ProviderInfo.Id provider)
      as [k|] eqn:D.
    + left. by eexists.
    + right. intros E0. apply (getDefaultModel_ranged _ _ _ _ D) in E as [k E].
      by rewrite E0, lookup_empty in E.
  - split.
    + by intros [? ?].
    + intros Y. by apply getDefaultModel_None in E.
Qed.

(** Whether a provider yields a model does not depend on the place of
    the call. *)
Lemma yieldsModel_cases response provider :
  yieldsModel response provider ∨ ¬ yieldsModel response provider.
Proof.
  destruct (getDefaultModel rangeModels AtAnthropic response provider) eqn:E.
  - left. apply (getDefaultModel_Some AtAnthropic). by eexists.
  - right. by apply (getDefaultModel_None AtAnthropic).
Qed.

Lemma first_yielding response ps :
  Exists (yieldsModel response) ps →
  ∃ l1 p l2, ps = l1 ++ p :: l2
    ∧ Forall (λ q, ¬ yieldsModel response q) l1
    ∧ yieldsModel response p.
Proof.
  induction ps as [|q ps IH]; intros E; [by inversion E|].
  destruct (yieldsModel_cases response q) as [Y|N].
  - exists [], q, ps. by repeat split.
  - inversion E as [? ? Y|? ? E']; subst; [done|].
    destruct (IH E') as (l1 & p & l2 & -> & F & Y).
    exists (q :: l1), p, l2. repeat split; [|done]. by constructor.
Qed.

(** *** The first loop: looking for "anthropic" *)

Lemma findAnthropic_snoc ps p :
  findAnthropic (ps ++ [p])
  = if decide (ProviderInfo.Id p = "anthropic") then Some p
    else findAnthropic ps.
Proof. unfold findAnthropic. by rewrite foldl_snoc. Qed.

Lemma findAnthropic_None ps :
  findAnthropic ps = None
  ↔ Forall (λ p, ProviderInfo.Id p ≠ "anthropic") ps.
Proof.
  induction ps as [|p ps IH] using rev_ind; [done|].
  rewrite findAnthropic_snoc, Forall_app, Forall_singleton.
  destruct (decide _) as [E|N]; [|tauto].
  split; [done|]. by intros [_ ?].
Qed.

Lemma findAnthropic_last l1 a l2 :
  ProviderInfo.Id a = "anthropic" →
  Forall (λ p, ProviderInfo.Id p ≠ "anthropic") l2 →
  findAnthropic (l1 ++ a :: l2) = Some a.
Proof.
  intros Ia. induction l2 as [|p l2 IH] using rev_ind; intros F.
  - rewrite findAnthropic_snoc. by rewrite decide_True.
  - rewrite Forall_app, Forall_singleton in F. destruct F as [F1 F2].
    rewrite app_comm_cons, app_assoc, findAnthropic_snoc.
    rewrite decide_False by exact F2. by apply IH.
Qed.

Lemma findAnthropic_Some ps a :
  findAnthropic ps = Some a →
  ∃ l1 l2, ps = l1 ++ a :: l2
    ∧ ProviderInfo.Id a = "anthropic"
    ∧ Forall (λ p, ProviderInfo.Id p ≠ "anthropic") l2.
Proof.
  induction ps as [|p ps IH] using rev_ind; [done|].
  rewrite findAnthropic_snoc. destruct (decide _) as [E|N].
  - intros [= <-]. exists ps, []. by repeat split.
  - intros H. destruct (IH H) as (l1 & l2 & -> & Ia & F).
    exists l1, (l2 ++ [p]). rewrite <- app_assoc. repeat split; [done|].
    apply Forall_app. split; [done|]. by apply Forall_singleton.
Qed.

(** *** The second loop: seeding the default *)

Lemma seedLoop_providers response i ps acc :
  (seedLoop rangeModels response i ps acc).2 = acc.2 ++ ps.
Proof.
  revert i acc. induction ps as [|p ps IH]; intros i [[dp dm] l]; simpl.
  - by rewrite app_nil_r.
  - rewrite IH. unfold seedStep.
    destruct (isNil dp || isNil dm); simpl; by rewrite <- app_assoc.
Qed.

Lemma seedLoop_settled response i ps p m l :
  seedLoop rangeModels response i ps (Some p, Some m, l) = (Some p, Some m, l ++ ps).
Proof.
  revert i l. induction ps as [|q ps IH]; intros i l; simpl.
  - by rewrite app_nil_r.
  - rewrite IH. by rewrite <- app_assoc.
Qed.

Lemma seedLoop_first response i l1 p l2 dp dm l :
  isNil dp || isNil dm = true →
  Forall (λ q, ¬ yieldsModel response q) l1 →
  yieldsModel response p →
  seedLoop rangeModels response i (l1 ++ p :: l2) (dp, dm, l)
  = (Some p, getDefaultModel rangeModels (AtSeed (i + length l1)) response p,
     l ++ l1 ++ p :: l2).
Proof.
  revert i dp dm l. induction l1 as [|q l1 IH]; intros i dp dm l C F Y; simpl.
  - rewrite C, Nat.add_0_r.
    apply (getDefaultModel_Some (AtSeed i)) in Y as [m Y]. rewrite Y.
    rewrite seedLoop_settled. by rewrite <- app_assoc.
  - inversion F as [|? ? N F']; subst. rewrite C.
    apply (getDefaultModel_None (AtSeed i)) in N. rewrite N.
    rewrite IH by (done || by rewrite orb_true_r).
    rewrite <- app_assoc, Nat.add_succ_r. done.
Qed.

Lemma seedLoop_none response i p ps dp dm l :
  isNil dp || isNil dm = true →
  Forall (λ q, ¬ yieldsModel response q) (p :: ps) →
  seedLoop rangeModels response i (p :: ps) (dp, dm, l)
  = (last (p :: ps), None, l ++ p :: ps).
Proof.
  revert i p dp dm l. induction ps as [|q ps IH]; intros i p dp dm l C F.
  - simpl. rewrite C. inversion F as [|? ? N _]; subst.
    apply (getDefaultModel_None (AtSeed i)) in N. by rewrite N.
  - inversion F as [|? ? N F']; subst.
    change (seedLoop rangeModels response i (p :: q :: ps) (dp, dm, l))
      with (seedLoop rangeModels response (S i) (q :: ps) (seedStep rangeModels response i (dp, dm, l) p)).
    unfold seedStep. rewrite C.
    apply (getDefaultModel_None (AtSeed i)) in N. rewrite N.
    rewrite IH by (done || by rewrite orb_true_r).
    rewrite <- app_assoc. done.
Qed.

Lemma seedDefault_providers response :
  (seedDefault rangeModels response).2 = ProviderList.Providers response.
Proof.
  unfold seedDefault. destruct (findAnthropic _); by rewrite seedLoop_providers.
Qed.

Lemma seedDefault_anthropic response l1 a l2 :
  ProviderList.Providers response = l1 ++ a :: l2 →
  ProviderInfo.Id a = "anthropic" →
  Forall (λ p, ProviderInfo.Id p ≠ "anthropic") l2 →
  yieldsModel response a →
  seedDefault rangeModels response
  = (Some a, getDefaultModel rangeModels AtAnthropic response a,
     ProviderList.Providers response).
Proof.
  intros E Ia F Y. unfold seedDefault.
  rewrite E, (findAnthropic_last l1 a l2 Ia F).
  apply (getDefaultModel_Some AtAnthropic) in Y as [m Y]. rewrite Y.
  by rewrite seedLoop_settled.
Qed.

Lemma seedDefault_first response l1 p l2 :
  ProviderList.Providers response = l1 ++ p :: l2 →
  Forall (λ q, ProviderInfo.Id q ≠ "anthropic") (ProviderList.Providers response) →
  Forall (λ q, ¬ yieldsModel response q) l1 →
  yieldsModel response p →
  seedDefault rangeModels response
  = (Some p, getDefaultModel rangeModels (AtSeed (length l1)) response p,
     ProviderList.Providers response).
Proof.
  intros E A F Y. unfold seedDefault.
  apply findAnthropic_None in A. rewrite A, E.
  by rewrite seedLoop_first.
Qed.

Lemma seedDefault_none response p ps :
  ProviderList.Providers response = p :: ps →
  Forall (λ q, ¬ yieldsModel response q) (p :: ps) →
  seedDefault rangeModels response = (last (p :: ps), None, p :: ps).
Proof.
  intros E F. unfold seedDefault. rewrite E.
  destruct (findAnthropic (p :: ps)) as [a|] eqn:A.
  - apply findAnthropic_Some in A as (l1 & l2 & E' & _ & _).
    assert (N : ¬ yieldsModel response a).
    { rewrite Forall_forall in F. apply F. rewrite E'.
      apply elem_of_app. right. left. }
    apply (getDefaultModel_None AtAnthropic) in N. rewrite N.
    by rewrite seedLoop_none.
  - by rewrite seedLoop_none.
Qed.

Lemma seedDefault_some response :
  Exists (yieldsModel response) (ProviderList.Providers response) →
  ∃ p m, seedDefault rangeModels response
         = (Some p, Some m, ProviderList.Providers response).
Proof.
  intros X. unfold seedDefault.
  destruct (first_yielding _ _ X) as (l1 & p & l2 & E & F & Y).
  destruct (findAnthropic _) as [a|].
  - destruct (getDefaultModel rangeModels AtAnthropic response a) as [m|].
    + exists a, m. by rewrite seedLoop_settled.
    + rewrite E, seedLoop_first by done.
      apply (getDefaultModel_Some (AtSeed (0 + length l1))) in Y as [m Y].
      rewrite Y. by exists p, m.
  - rewrite E, seedLoop_first by done.
    apply (getDefaultModel_Some (AtSeed (0 + length l1))) in Y as [m Y].
    rewrite Y. by exists p, m.
Qed.

(** *** The third loop: reconciling with the persisted selection *)

Lemma matchModel_cases wanted visited cur :
  (matchModel wanted visited cur = cur
     ∧ Forall (λ kv, ModelInfo.Id kv.2 ≠ wanted) visited)
  ∨ (∃ kv, kv ∈ visited ∧ ModelInfo.Id kv.2 = wanted
       ∧ matchModel wanted visited cur = Some kv.2).
Proof.
  unfold matchModel.
  induction visited as [|kv visited IH] using rev_ind; [by left|].
  rewrite foldl_snoc. destruct (decide (ModelInfo.Id kv.2 = wanted)) as [E|N].
  - right. exists kv. split; [|done]. apply elem_of_app. right. left.
  - destruct IH as [[E F]|(kv' & I & E & M)].
    + left. split; [done|]. apply Forall_app. split; [done|].
      by apply Forall_singleton.
    + right. exists kv'. split; [|done]. apply elem_of_app. by left.
Qed.

Lemma persisted_snoc state done p :
  persisted state (done ++ [p])
  ↔ persisted state done
    ∨ (ProviderInfo.Id p = State.Provider state
       ∧ ∃ k m, ProviderInfo.Models p !! k = Some m
                ∧ ModelInfo.Id m = State.Model state).
Proof.
  unfold persisted. split.
  - intros (q & k & m & I & E1 & E2 & E3).
    apply elem_of_app in I as [I|I%list_elem_of_singleton].
    + left. by exists q, k, m.
    + subst q. right. split; [done|]. by exists k, m.
  - intros [(q & k & m & I & E)|(E1 & k & m & E2)].
    + exists q, k, m. split; [|done]. apply elem_of_app. by left.
    + exists p, k, m. split; [|done]. apply elem_of_app. right. left.
Qed.

Lemma reconcileStep_reconciled state i done acc p :
  reconciled state done acc →
  reconciled state (done ++ [p]) (reconcileStep rangeModels state i acc p).
Proof.
  destruct acc as [cp cm]. unfold reconciled, reconcileStep. simpl.
  destruct (decide (ProviderInfo.Id p = State.Provider state)) as [E|N]; simpl.
  - destruct (matchModel_cases (State.Model state)
                (rangeModels (AtReconcile i) (ProviderInfo.Models p)) cm)
      as [[-> F]|([k m] & I & Em & ->)].
    + destruct cm as [m|].
      * intros ((q & _ & Iq & Eq) & Em & (p' & k & I' & E' & L)).
        split; [|split; [done|]].
        -- exists p. split; [done|]. split; [|done]. apply elem_of_app. right. left.
        -- exists p', k. split; [|done]. apply elem_of_app. by left.
      * intros NP. rewrite persisted_snoc. intros [P|(_ & k & m & L & Em)]; [done|].
        apply (rangeModels_elem (AtReconcile i)) in L.
        rewrite Forall_forall in F. by apply (F _ L).
    + intros _. simpl in *. apply rangeModels_elem in I.
      split; [|split; [done|]].
      * exists p. split; [done|]. split; [|done]. apply elem_of_app. right. left.
      * exists p, k. split; [|done]. apply elem_of_app. right. left.
  - destruct cm as [m|].
    + intros ((q & Eq & Iq & Eq') & Em & (p' & k & I' & E' & L)).
      split; [|split; [done|]].
      * exists q. split; [done|]. split; [|done]. apply elem_of_app. by left.
      * exists p', k. split; [|done]. apply elem_of_app. by left.
    + intros NP. rewrite persisted_snoc. by intros [P|(E & _)].
Qed.

Lemma reconcileLoop_reconciled state i done ps acc :
  reconciled state done acc →
  reconciled state (done ++ ps) (reconcileLoop rangeModels state i ps acc).
Proof.
  revert i done acc. induction ps as [|p ps IH]; intros i done acc R; simpl.
  - by rewrite app_nil_r.
  - rewrite (cons_middle p done ps), app_assoc. apply IH.
    by apply reconcileStep_reconciled.
Qed.

Lemma reconcile_reconciled state ps :
  reconciled state ps (reconcileLoop rangeModels state 0 ps (None, None)).
Proof.
  apply (reconcileLoop_reconciled state 0 [] ps (None, None)).
  unfold reconciled, persisted. simpl.
  intros (p & _ & _ & I & _). by apply elem_of_nil in I.
Qed.

Lemma reconcile_found state ps :
  persisted state ps →
  ∃ p m, reconcileLoop rangeModels state 0 ps (None, None) = (Some p, Some m)
    ∧ p ∈ ps
    ∧ ProviderInfo.Id p = State.Provider state
    ∧ ModelInfo.Id m = State.Model state
    ∧ ∃ p' k, p' ∈ ps
        ∧ ProviderInfo.Id p' = State.Provider state
        ∧ ProviderInfo.Models p' !! k = Some m.
Proof.
  intros P. pose proof (reconcile_reconciled state ps) as R.
  destruct (reconcileLoop rangeModels state 0 ps (None, None)) as [cp cm].
  unfold reconciled in R. simpl in R. destruct cm as [m|]; [|done].
  destruct R as ((p & -> & I & E) & Em & W). by exists p, m.
Qed.

Lemma reconcile_missing state ps dp dm :
  ¬ persisted state ps →
  fallback (reconcileLoop rangeModels state 0 ps (None, None)) dp dm
  = (dp, dm).
Proof.
  intros NP. pose proof (reconcile_reconciled state ps) as R.
  destruct (reconcileLoop rangeModels state 0 ps (None, None)) as [cp cm].
  unfold reconciled in R. simpl in R. destruct cm as [m|].
  - destruct R as (_ & Em & (p' & k & I & E & L)). destruct NP.
    by exists p', k, m.
  - unfold fallback. simpl. by rewrite orb_true_r.
Qed.

(** *** The command as a whole *)

Lemma InitializeProvider_ok a r response :
  PostProviderListResponse.StatusCode r = 200%Z →
  PostProviderListResponse.JSON200 r = Some response →
  InitializeProvider rangeModels a (Some r, None)
  = if bool_decide (length (ProviderList.Providers response) = 0)
    then ([EvRequest PostProviderList;
           EvLog LevelError "No providers configured" []], Done None)
    else ([EvRequest PostProviderList],
          match resolve rangeModels (App.State a)
                        (seedDefault rangeModels response) with
          | Done msg => Done (Some msg)
          | Panic => Panic
          end).
Proof.
  intros S J. unfold InitializeProvider. simpl.
  rewrite bool_decide_eq_false_2 by (by rewrite S; intros ?).
  rewrite J. simpl. rewrite seedDefault_providers.
  case_bool_decide; [done|].
  by destruct (resolve _ _ _).
Qed.

Lemma resolve_missing state dp dm ps :
  ¬ persisted state ps →
  resolve rangeModels state (dp, dm, ps) = selected (dp, dm).
Proof. intros NP. unfold resolve. by rewrite reconcile_missing. Qed.

Lemma not_yieldsModel response p :
  ¬ yieldsModel response p
  ↔ ProviderInfo.Models p = ∅
    ∧ ProviderList.Default response !! ProviderInfo.Id p = None.
Proof.
  unfold yieldsModel. split.
  - intros N. split.
    + apply map_to_list_empty_iff.
      destruct (map_to_list (ProviderInfo.Models p)) eqn:E; [done|].
      destruct N. right. intros E0. by rewrite E0, map_to_list_empty in E.
    + destruct (ProviderList.Default response !! _) eqn:E; [|done].
      destruct N. left. by eexists.
  - intros [E1 E2] [[k E]|N]; [|done]. by rewrite E2 in E.
Qed.

Lemma persisted_yields response state :
  persisted state (ProviderList.Providers response) →
  Exists (yieldsModel response) (ProviderList.Providers response).
Proof.
  intros (p & k & m & I & _ & L & _). apply Exists_exists. exists p.
  split; [done|]. right. intros E. by rewrite E, lookup_empty in L.
Qed.

(** C1 (amended).  When the listing holds a provider "anthropic" that
    yields a default model (a defaults-map entry for it or a non-empty
    model mapping), that provider, wherever it stands in the list, is
    the preliminary default provider; its default model is the entry of its
    model mapping under the key the defaults map gives for "anthropic"
    when there is one (the zero model when the mapping lacks that key);
    and unless the persisted selection is found, the command returns
    that pair. *)
Theorem anthropic_is_default a r response l1 anthropic l2 :
  PostProviderListResponse.StatusCode r = 200%Z →
  PostProviderListResponse.JSON200 r = Some response →
  ProviderList.Providers response = l1 ++ anthropic :: l2 →
  ProviderInfo.Id anthropic = "anthropic" →
  Forall (λ p, ProviderInfo.Id p ≠ "anthropic") l2 →
  yieldsModel response anthropic →
  ∃ model,
    seedDefault rangeModels response
    = (Some anthropic, Some model, ProviderList.Providers response)
    ∧ (∀ k, ProviderList.Default response !! "anthropic" = Some k →
            model = default ModelInfo.zero
                      (ProviderInfo.Models anthropic !! k))
    ∧ (¬ persisted (App.State a) (ProviderList.Providers response) →
       InitializeProvider rangeModels a (Some r, None)
       = ([EvRequest PostProviderList],
          Done (Some (ModelSelectedMsg anthropic model)))).
Proof.
  intros S J E Ia F Y.
  pose proof (seedDefault_anthropic response l1 anthropic l2 E Ia F Y) as D.
  pose proof Y as Y'.
  apply (getDefaultModel_Some AtAnthropic) in Y' as [model G].
  rewrite G in D. exists model. split; [done|]. split.
  - intros k Ek. rewrite <- Ia in Ek.
    rewrite (getDefaultModel_entry AtAnthropic _ _ _ Ek) in G. by injection G.
  - intros NP. rewrite (InitializeProvider_ok a r response S J).
    rewrite bool_decide_eq_false_2 by (rewrite E, length_app; simpl; lia).
    by rewrite D, resolve_missing.
Qed.

(** C3 (amended).  When no provider of the listing has the id
    "anthropic", the preliminary default provider is the first provider,
    in the order of the listing, that yields a default model; this is
    the first provider of the listing whenever that one yields a model. *)
Theorem first_yielding_is_default a r response l1 p l2 :
  PostProviderListResponse.StatusCode r = 200%Z →
  PostProviderListResponse.JSON200 r = Some response →
  ProviderList.Providers response = l1 ++ p :: l2 →
  Forall (λ q, ProviderInfo.Id q ≠ "anthropic")
         (ProviderList.Providers response) →
  Forall (λ q, ¬ yieldsModel response q) l1 →
  yieldsModel response p →
  ∃ model,
    seedDefault rangeModels response
    = (Some p, Some model, ProviderList.Providers response)
    ∧ getDefaultModel rangeModels (AtSeed (length l1)) response p = Some model
    ∧ (¬ persisted (App.State a) (ProviderList.Providers response) →
       InitializeProvider rangeModels a (Some r, None)
       = ([EvRequest PostProviderList],
          Done (Some (ModelSelectedMsg p model)))).
Proof.
  intros S J E A F Y.
  pose proof (seedDefault_first response l1 p l2 E A F Y) as D.
  pose proof Y as Y'.
  apply (getDefaultModel_Some (AtSeed (length l1))) in Y' as [model G].
  rewrite G in D. exists model. split; [done|]. split; [done|].
  intros NP. rewrite (InitializeProvider_ok a r response S J).
  rewrite bool_decide_eq_false_2 by (rewrite E, length_app; simpl; lia).
  by rewrite D, resolve_missing.
Qed.


(** C8 (amended).  When the listing succeeds with an empty provider
    list, the command logs "No providers configured" and returns no
    message: no failure value is produced. *)
Theorem no_providers_returns_nil a r response :
  PostProviderListResponse.StatusCode r = 200%Z →
  PostProviderListResponse.JSON200 r = Some response →
  ProviderList.Providers response = [] →
  InitializeProvider rangeModels a (Some r, None)
  = ([EvRequest PostProviderList;
      EvLog LevelError "No providers configured" []], Done None).
Proof.
  intros S J E. rewrite (InitializeProvider_ok a r response S J).
  by rewrite E.
Qed.

(** C10.  The result message dereferences the resolved provider and
    model without a nil check.  On a non-empty listing in which every
    provider has an empty model mapping and no defaults-map entry the
    default model stays nil and the command panics on the dereference;
    as soon as one provider yields a default model the command returns a
    message. *)
Theorem nil_default_model_panics a r response :
  PostProviderListResponse.StatusCode r = 200%Z →
  PostProviderListResponse.JSON200 r = Some response →
  ProviderList.Providers response ≠ [] →
  (Forall (λ p, ProviderInfo.Models p = ∅
                ∧ ProviderList.Default response !! ProviderInfo.Id p = None)
          (ProviderList.Providers response) →
     (seedDefault rangeModels response).1.2 = None
     ∧ InitializeProvider rangeModels a (Some r, None)
       = ([EvRequest PostProviderList], Panic))
  ∧ (Exists (yieldsModel response) (ProviderList.Providers response) →
     ∃ p m, InitializeProvider rangeModels a (Some r, None)
            = ([EvRequest PostProviderList],
               Done (Some (ModelSelectedMsg p m)))).
Proof.
  intros S J NE.
  assert (I : InitializeProvider rangeModels a (Some r, None)
              = ([EvRequest PostProviderList],
                 match resolve rangeModels (App.State a)
                               (seedDefault rangeModels response) with
                 | Done msg => Done (Some msg)
                 | Panic => Panic
                 end)).
  { rewrite (InitializeProvider_ok a r response S J).
    rewrite bool_decide_eq_false_2; [done|].
    intros L. by apply nil_length_inv in L. }
  rewrite I. split.
  - intros F.
    assert (F' : Forall (λ q, ¬ yieldsModel response q)
                        (ProviderList.Providers response)).
    { eapply Forall_impl; [exact F|]. intros p H. by apply not_yieldsModel. }
    destruct (ProviderList.Providers response) as [|p ps] eqn:E; [done|].
    rewrite (seedDefault_none response p ps E F'). split; [done|].
    rewrite resolve_missing.
    + unfold selected. simpl. by destruct (last (p :: ps)).
    + intros P. rewrite <- E in P. apply persisted_yields in P.
      rewrite E in P. apply Exists_exists in P as (q & Iq & Yq).
      rewrite Forall_forall in F'. by apply (F' q).
  - intros X. destruct (seedDefault_some response X) as (p & m & ->).
    unfold resolve, fallback, selected.
    destruct (reconcileLoop rangeModels (App.State a) 0 _ (None, None))
      as [[cp|] [cm|]]; simpl; by eauto.
Qed.

End ResolutionFacts.

(** *** Resolution on concrete listings *)

Lemma rangeSorted_perm site m : rangeSorted site m ≡ₚ map_to_list m.
Proof. reflexivity. Qed.

Lemma fresh_state_not_persisted ps :
  Forall (λ p, ProviderInfo.Id p ≠ "") ps → ¬ persisted fresh_state ps.
Proof.
  intros F (p & k & m & I & E & _). rewrite Forall_forall in F.
  by apply (F p I).
Qed.

(** The scenario of the specification: openai then anthropic, with the
    default "claude-3" for anthropic, resolves to anthropic and
    claude-3. *)
Lemma scenario_resolves_to_anthropic :
  InitializeProvider rangeSorted fresh_app (listed listing_scenario)
  = ([EvRequest PostProviderList],
     Done (Some (ModelSelectedMsg anthropic_full claude3))).
Proof. vm_compute. reflexivity. Qed.

Lemma anthropic_is_default_witness :
  yieldsModel listing_scenario anthropic_full
  ∧ ∃ model,
      seedDefault rangeSorted listing_scenario
      = (Some anthropic_full, Some model,
         ProviderList.Providers listing_scenario)
      ∧ (∀ k, ProviderList.Default listing_scenario !! "anthropic" = Some k →
              model = default ModelInfo.zero
                        (ProviderInfo.Models anthropic_full !! k))
      ∧ (¬ persisted (App.State fresh_app)
                     (ProviderList.Providers listing_scenario) →
         InitializeProvider rangeSorted fresh_app
                            (Some (ok_response listing_scenario), None)
         = ([EvRequest PostProviderList],
            Done (Some (ModelSelectedMsg anthropic_full model)))).
Proof.
  assert (Y : yieldsModel listing_scenario anthropic_full).
  { left. exists "claude-3". vm_compute. reflexivity. }
  split; [exact Y|].
  apply (anthropic_is_default rangeSorted rangeSorted_perm fresh_app
           (ok_response listing_scenario) listing_scenario
           [openai_bare] anthropic_full []).
  - reflexivity.
  - reflexivity.
  - reflexivity.
  - reflexivity.
  - constructor.
  - exact Y.
Defined.

(** C1, as stated, fails: "anthropic" is listed, yet openai is the
    default provider, and the provider returned. *)
Lemma anthropic_listed_not_default :
  anthropic_bare ∈ ProviderList.Providers listing_bare_anthropic
  ∧ ProviderInfo.Id anthropic_bare = "anthropic"
  ∧ (seedDefault rangeSorted listing_bare_anthropic).1.1 = Some openai_full
  ∧ ProviderInfo.Id openai_full = "openai"
  ∧ InitializeProvider rangeSorted fresh_app (listed listing_bare_anthropic)
    = ([EvRequest PostProviderList],
       Done (Some (ModelSelectedMsg openai_full gpt4))).
Proof.
  split; [|split; [|split; [|split]]].
  - right. left.
  - reflexivity.
  - vm_compute. reflexivity.
  - reflexivity.
  - vm_compute. reflexivity.
Qed.

Lemma first_yielding_is_default_witness :
  yieldsModel listing_first_with_model openai_full
  ∧ ∃ model,
      seedDefault rangeSorted listing_first_with_model
      = (Some openai_full, Some model,
         ProviderList.Providers listing_first_with_model)
      ∧ getDefaultModel rangeSorted (AtSeed 0) listing_first_with_model
                        openai_full = Some model
      ∧ (¬ persisted (App.State fresh_app)
                     (ProviderList.Providers listing_first_with_model) →
         InitializeProvider rangeSorted fresh_app
                            (Some (ok_response listing_first_with_model), None)
         = ([EvRequest PostProviderList],
            Done (Some (ModelSelectedMsg openai_full model)))).
Proof.
  assert (Y : yieldsModel listing_first_with_model openai_full).
  { right. intros E. apply (f_equal (lookup "gpt-4")) in E.
    vm_compute in E. discriminate E. }
  split; [exact Y|].
  apply (first_yielding_is_default rangeSorted rangeSorted_perm fresh_app
           (ok_response listing_first_with_model) listing_first_with_model
           [] openai_full [mistral_bare]).
  - reflexivity.
  - reflexivity.
  - reflexivity.
  - repeat constructor; discriminate.
  - constructor.
  - exact Y.
Defined.

(** C3, as stated, fails: no "anthropic" is listed, mistral comes
    first, yet openai is the default provider, and the provider
    returned. *)
Lemma first_provider_not_default :
  Forall (λ p, ProviderInfo.Id p ≠ "anthropic")
         (ProviderList.Providers listing_first_without_model)
  ∧ head (ProviderList.Providers listing_first_without_model)
    = Some mistral_bare
  ∧ (seedDefault rangeSorted listing_first_without_model).1.1
    = Some openai_full
  ∧ ProviderInfo.Id openai_full ≠ ProviderInfo.Id mistral_bare
  ∧ InitializeProvider rangeSorted fresh_app
                       (listed listing_first_without_model)
    = ([EvRequest PostProviderList],
       Done (Some (ModelSelectedMsg openai_full gpt4))).
Proof.
  split; [|split; [|split; [|split]]].
  - repeat constructor; discriminate.
  - reflexivity.
  - vm_compute. reflexivity.
  - discriminate.
  - vm_compute. reflexivity.
Qed.


Lemma no_providers_returns_nil_witness :
  InitializeProvider rangeSorted fresh_app (listed listing_empty)
  = ([EvRequest PostProviderList;
      EvLog LevelError "No providers configured" []], Done None).
Proof.
  apply (no_providers_returns_nil rangeSorted fresh_app
           (ok_response listing_empty) listing_empty);
    reflexivity.
Defined.

(** C8, as stated, fails: on an empty listing the command completes
    without a message, as it does when the listing itself fails; the
    log record is the only difference. *)
Lemma no_providers_no_failure :
  (InitializeProvider rangeSorted fresh_app (listed listing_empty)).2
  = Done None
  ∧ (InitializeProvider rangeSorted fresh_app
       (None, Some "connection refused")).2
    = Done None.
Proof. split; reflexivity. Qed.

Lemma nil_default_model_panics_witness :
  Forall (λ p, ProviderInfo.Models p = ∅
               ∧ ProviderList.Default listing_no_models
                   !! ProviderInfo.Id p = None)
         (ProviderList.Providers listing_no_models)
  ∧ (seedDefault rangeSorted listing_no_models).1.2 = None
  ∧ InitializeProvider rangeSorted fresh_app (listed listing_no_models)
    = ([EvRequest PostProviderList], Panic).
Proof.
  assert (F : Forall (λ p, ProviderInfo.Models p = ∅
                           ∧ ProviderList.Default listing_no_models
                               !! ProviderInfo.Id p = None)
                     (ProviderList.Providers listing_no_models)).
  { repeat constructor. }
  split; [exact F|].
  apply (nil_default_model_panics rangeSorted rangeSorted_perm fresh_app
           (ok_response listing_no_models) listing_no_models
           eq_refl eq_refl).
  - discriminate.
  - exact F.
Defined.

(** ** The busy flag and sending *)

Lemma IsBusy_last a :
  IsBusy a
  = match last (App.Messages a) with
    | Some m =>
        isNil (MessageTime.Completed
                 (MessageMetadata.Time (MessageInfo.Metadata m)))
    | None => false
    end.
Proof.
  unfold IsBusy. destruct (App.Messages a) as [|m ms] eqn:E; [done|].
  rewrite bool_decide_eq_false_2 by done.
  rewrite last_lookup. simpl. by rewrite Nat.sub_0_r.
Qed.

Lemma IsBusy_snoc a ms m :
  IsBusy (App.with_Messages a (ms ++ [m]))
  = isNil (MessageTime.Completed
             (MessageMetadata.Time (MessageInfo.Metadata m))).
Proof. rewrite IsBusy_last. simpl. by rewrite last_snoc. Qed.

(** A send that returns a batch has appended the optimistic message. *)
Lemma SendChatMessage_batch a env text attachments t a' cmds :
  SendChatMessage a env text attachments = (t, Done (a', Batch cmds)) →
  ∃ b SessionID,
    a' = App.with_Messages b
           (App.Messages a ++ [optimistic env SessionID text]).
Proof.
  unfold SendChatMessage, ensureSession, CreateSession, bind, lift, ret,
    emit, deref.
  destruct (creation env) as [resp err].
  repeat (case_match; simplify_eq/=); intros; simplify_eq/=;
    by eexists _, _.
Qed.

(** C5.  With an empty session id and a failing session creation, the
    send is aborted: the command returned is the error toast with the
    error of the creation, the [App] and its messages are unchanged, the
    only request issued is the creation, and no chat request is
    dispatched. *)
Theorem failed_creation_aborts_send a env text attachments current e :
  App.Session a = Some current →
  SessionInfo.Id current = "" →
  CreateFails (creation env) e →
  SendChatMessage a env text attachments
  = ([EvRequest PostSessionCreate], Done (a, NewErrorToast e))
  ∧ dispatched (SendChatMessage a env text attachments) = [].
Proof.
  intros S I F.
  assert (E : SendChatMessage a env text attachments
              = ([EvRequest PostSessionCreate], Done (a, NewErrorToast e))).
  { unfold SendChatMessage, ensureSession, CreateSession, bind, lift, ret,
      emit, deref.
    rewrite S. simpl. rewrite decide_True by done.
    destruct F as [resp e|r N]; simpl; [done|].
    by rewrite bool_decide_eq_true_2. }
  split; [exact E|]. by rewrite E.
Qed.

(** C6.  [IsBusy] holds exactly when the message sequence is not empty
    and its last message has no completion time; it is false on the
    empty sequence, and true after every send that went through. *)
Theorem IsBusy_iff a :
  (IsBusy a = true
   ↔ App.Messages a ≠ []
     ∧ ∃ m, last (App.Messages a) = Some m
         ∧ MessageTime.Completed
             (MessageMetadata.Time (MessageInfo.Metadata m)) = None)
  ∧ (App.Messages a = [] → IsBusy a = false)
  ∧ (∀ env text attachments t a' cmds,
       SendChatMessage a env text attachments = (t, Done (a', Batch cmds)) →
       IsBusy a' = true).
Proof.
  split; [|split].
  - rewrite IsBusy_last. destruct (App.Messages a) as [|m0 ms] eqn:E.
    + simpl. split; [done|]. by intros [? _].
    + destruct (last (m0 :: ms)) as [m|] eqn:L.
      * split.
        -- intros B. split; [done|]. exists m. split; [done|].
           by destruct (MessageTime.Completed _).
        -- intros (_ & m' & [= <-] & ->). done.
      * split; [done|]. by intros (_ & m' & ? & _).
  - intros E. rewrite IsBusy_last. by rewrite E.
  - intros env text attachments t a' cmds H.
    apply SendChatMessage_batch in H as (b & SessionID & ->).
    by rewrite IsBusy_snoc.
Qed.

(** The suffix of an optimistic id tells the clock readings apart. *)
Lemma optimistic_id_inj env1 env2 s1 s2 text1 text2 :
  MessageInfo.Id (optimistic env1 s1 text1)
  = MessageInfo.Id (optimistic env2 s2 text2) →
  now_UnixNano env1 = now_UnixNano env2.
Proof.
  simpl. intros E. injection E as E. simpl in E.
  unfold fmt_d in E. exact (pretty_Z_inj _ _ E).
Qed.

(** C7.  A send from an empty session id, the creation succeeding with
    [session]: one session is requested and stored, then one message is
    appended, and nothing else happens; the message is the optimistic one,
    with the role user, the text as its only part, an id made of
    "optimistic-" and the clock in nanoseconds, the creation time read
    from the clock, and no completion time. *)
Theorem send_creates_then_appends a env text attachments current r session :
  App.Session a = Some current →
  SessionInfo.Id current = "" →
  creation env = (Some r, None) →
  PostSessionCreateResponse.StatusCode r = 200%Z →
  PostSessionCreateResponse.JSON200 r = Some session →
  let m := optimistic env (SessionInfo.Id session) text in
  SendChatMessage a env text attachments
  = ([EvRequest PostSessionCreate;
      EvSetSession (Some session);
      EvAppendMessage m],
     Done (App.with_Messages (App.with_Session a (Some session))
                             (App.Messages a ++ [m]),
           Batch [CmdHandler (SessionSelectedMsg (Some session));
                  CmdHandler (OptimisticMessageAddedMsg m);
                  PostChat (MessageInfo.Parts m)]))
  ∧ role_name (MessageInfo.Role m) = "user"
  ∧ MessageInfo.Parts m
    = [FromMessagePartText {| MessagePartText.Type_ := "text";
                              MessagePartText.Text := text |}]
  ∧ MessageInfo.Id m = "optimistic-" +:+ fmt_d (now_UnixNano env)
  ∧ MessageTime.Created (MessageMetadata.Time (MessageInfo.Metadata m))
    = float32_of_int64 (now_Unix env)
  ∧ MessageTime.Completed (MessageMetadata.Time (MessageInfo.Metadata m))
    = None.
Proof.
  intros S I C St J m. split; [|done].
  unfold SendChatMessage, ensureSession, CreateSession, bind, lift, ret,
    emit, deref.
  rewrite S. simpl. rewrite decide_True by done. rewrite C. simpl.
  rewrite bool_decide_eq_false_2 by (by rewrite St; intros ?).
  by rewrite J.
Qed.

(** A chat request answered with a status other than 200 is logged and
    surfaces as an error toast. *)
Lemma runPostChat_status a parts body code :
  chatBody a parts = Done body →
  code ≠ 200%Z →
  runPostChat a parts (Some code, None)
  = ([EvRequest (PostSessionChat body);
      EvLog LevelError ("failed to send message: " +:+ fmt_d code) []],
     Done (Some (ErrorToastMsg ("failed to send message: " +:+ fmt_d code)))).
Proof.
  intros B N. unfold runPostChat, bind, lift, ret, emit, slog_Error.
  rewrite B. simpl. by rewrite bool_decide_eq_true_2.
Qed.

(** C9 (amended).  The attachments are not used: the result of a send,
    and so every request it dispatches, is the same for all attachments. *)
Theorem attachments_are_ignored a env text attachments1 attachments2 :
  SendChatMessage a env text attachments1
  = SendChatMessage a env text attachments2.
Proof. reflexivity. Qed.

(** *** Sending on concrete inputs *)

Lemma failed_creation_aborts_send_witness :
  CreateFails (creation env_refused) "failed to create session: 500"
  ∧ SendChatMessage fresh_app env_refused "hi" []
    = ([EvRequest PostSessionCreate],
       Done (fresh_app, NewErrorToast "failed to create session: 500"))
  ∧ dispatched (SendChatMessage fresh_app env_refused "hi" []) = [].
Proof.
  assert (F : CreateFails (creation env_refused)
                "failed to create session: 500").
  { apply (fails_status
             {| PostSessionCreateResponse.StatusCode := 500;
                PostSessionCreateResponse.JSON200 := None |}).
    discriminate. }
  split; [exact F|].
  apply (failed_creation_aborts_send fresh_app env_refused "hi" []
           SessionInfo.zero "failed to create session: 500");
    [reflexivity | reflexivity | exact F].
Defined.

Lemma IsBusy_iff_witness :
  let m := optimistic env_created "ses_1" "hi" in
  IsBusy fresh_app = false
  ∧ IsBusy (App.with_Messages (App.with_Session ready_app (Some session1)) [m])
    = true.
Proof.
  intros m. split.
  - apply (IsBusy_iff fresh_app). reflexivity.
  - apply (proj2 (proj2 (IsBusy_iff ready_app)) env_created "hi" []
             [EvRequest PostSessionCreate; EvSetSession (Some session1);
              EvAppendMessage m]
             (App.with_Messages (App.with_Session ready_app (Some session1)) [m])
             [CmdHandler (SessionSelectedMsg (Some session1));
              CmdHandler (OptimisticMessageAddedMsg m);
              PostChat (MessageInfo.Parts m)]).
    vm_compute. reflexivity.
Defined.

Lemma send_creates_then_appends_witness :
  let m := optimistic env_created "ses_1" "hi" in
  SendChatMessage ready_app env_created "hi" []
  = ([EvRequest PostSessionCreate;
      EvSetSession (Some session1);
      EvAppendMessage m],
     Done (App.with_Messages (App.with_Session ready_app (Some session1)) [m],
           Batch [CmdHandler (SessionSelectedMsg (Some session1));
                  CmdHandler (OptimisticMessageAddedMsg m);
                  PostChat (MessageInfo.Parts m)]))
  ∧ MessageInfo.Id m = "optimistic-1750000001123456789"
  ∧ MessageTime.Created (MessageMetadata.Time (MessageInfo.Metadata m))
    = 1750000000%Z.
Proof.
  intros m.
  destruct (send_creates_then_appends ready_app env_created "hi" []
              SessionInfo.zero
              {| PostSessionCreateResponse.StatusCode := 200;
                 PostSessionCreateResponse.JSON200 := Some session1 |}
              session1 eq_refl eq_refl eq_refl eq_refl eq_refl)
    as (E & _).
  split; [exact E|]. split; vm_compute; reflexivity.
Defined.

(** C9, as stated, fails: with and without an attachment the same text
    gives the same send, and the same request body. *)
Lemma attachment_changes_nothing :
  [] ≠ [notes_txt]
  ∧ SendChatMessage ready_app env_created "hi" []
    = SendChatMessage ready_app env_created "hi" [notes_txt]
  ∧ dispatched (SendChatMessage ready_app env_created "hi" [])
    = [Done {| PostSessionChatJSONRequestBody.SessionID := "ses_1";
               PostSessionChatJSONRequestBody.Parts :=
                 [FromMessagePartText
                    {| MessagePartText.Type_ := "text";
                       MessagePartText.Text := "hi" |}];
               PostSessionChatJSONRequestBody.ProviderID := "anthropic";
               PostSessionChatJSONRequestBody.ModelID := "claude-3" |}]
  ∧ dispatched (SendChatMessage ready_app env_created "hi" [notes_txt])
    = dispatched (SendChatMessage ready_app env_created "hi" []).
Proof.
  split; [discriminate|]. split; [reflexivity|].
  split; [vm_compute; reflexivity|reflexivity].
Qed.

(** ** Listing sessions *)

Lemma created_less_true x y :
  created_less x y = true
  ↔ (SessionInfo.Created y < SessionInfo.Created x)%Z.
Proof. unfold created_less. rewrite Z.gtb_ltb, Z.ltb_lt. lia. Qed.

Lemma created_less_false x y :
  created_less x y = false
  ↔ (SessionInfo.Created x ≤ SessionInfo.Created y)%Z.
Proof. unfold created_less. rewrite Z.gtb_ltb, Z.ltb_ge. lia. Qed.

Lemma created_less_strict_weak : StrictWeak created_less.
Proof.
  split.
  - intros x. apply created_less_false. lia.
  - intros x y z. rewrite !created_less_true. lia.
  - intros x y z. rewrite !created_less_false. lia.
Qed.

Section ListingFacts.

Variable sort_Slice :
  (SessionInfo.t → SessionInfo.t → bool) → list SessionInfo.t → list SessionInfo.t.
Hypothesis sort_Slice_sorts : SortsSlices sort_Slice.

Lemma sort_Slice_perm less l : sort_Slice less l ≡ₚ l.
Proof. apply sort_Slice_sorts. Qed.

Lemma sorted_by_created l :
  StronglySorted
    (λ x y, (SessionInfo.Created y ≤ SessionInfo.Created x)%Z)
    (sort_Slice created_less l).
Proof.
  destruct (sort_Slice_sorts created_less l) as [_ H].
  specialize (H created_less_strict_weak).
  rewrite <- (list_fmap_id (sort_Slice created_less l)).
  eapply (StronglySorted_fmap id); [|exact H].
  intros x y. apply created_less_false.
Qed.


(** The scenario of the specification: creation times 5, 1, 9 come out
    as 9, 5, 1. *)
Lemma scenario_5_1_9 :
  ∃ sorted,
    ListSessions sort_Slice
      (Some (sessions_listed (Some [ses_a; ses_b; ses_c])), None)
    = ([EvRequest PostSessionList], Done (sorted, None))
    ∧ SessionInfo.Created <$> sorted = [9; 5; 1]%Z.
Proof.
  exists (sort_Slice created_less [ses_a; ses_b; ses_c]).
  split; [reflexivity|].
  apply (StronglySorted_unique_strong (λ t u : Z, (u ≤ t)%Z)).
  - intros; lia.
  - eapply StronglySorted_fmap; [|apply sorted_by_created]. by intros.
  - repeat constructor; lia.
  - rewrite sort_Slice_perm. symmetry.
    apply (@Permutation_cons_app Z [5; 1]%Z [5; 1]%Z [] 9%Z). done.
Qed.


End ListingFacts.

(** *** Two admissible sorts *)

Lemma insert_by_perm {A} (less : A → A → bool) x l :
  insert_by less x l ≡ₚ x :: l.
Proof.
  induction l as [|y l IH]; simpl; [done|].
  destruct (less y x); [|done]. rewrite IH. apply Permutation_swap.
Qed.

Lemma insertion_sort_perm {A} (less : A → A → bool) l :
  insertion_sort less l ≡ₚ l.
Proof.
  unfold insertion_sort. induction l as [|x l IH]; simpl; [done|].
  by rewrite insert_by_perm, IH.
Qed.

Lemma insert_by_sorted {A} (less : A → A → bool) x l :
  StrictWeak less →
  StronglySorted (λ u v, less v u = false) l →
  StronglySorted (λ u v, less v u = false) (insert_by less x l).
Proof.
  intros W. induction l as [|y l IH]; intros H; simpl.
  - repeat constructor.
  - apply StronglySorted_cons in H as [F H].
    destruct (less y x) eqn:L.
    + apply StronglySorted_cons. split; [|by apply IH].
      rewrite insert_by_perm. constructor; [|done].
      destruct (less x y) eqn:L'; [|done].
      pose proof (less_trans less W _ _ _ L L') as T.
      by rewrite (less_irrefl less W) in T.
    + apply StronglySorted_cons. split.
      * constructor; [done|]. eapply Forall_impl; [exact F|].
        intros z Hz. simpl in Hz. by apply (less_incomparable less W z y x).
      * by apply StronglySorted_cons.
Qed.

Lemma insertion_sort_sorted {A} (less : A → A → bool) l :
  StrictWeak less →
  StronglySorted (λ u v, less v u = false) (insertion_sort less l).
Proof.
  intros W. unfold insertion_sort. induction l as [|x l IH]; simpl.
  - constructor.
  - by apply insert_by_sorted.
Qed.

Lemma insertion_sort_sorts : SortsSlices insertion_sort.
Proof.
  intros less l. split.
  - apply insertion_sort_perm.
  - apply insertion_sort_sorted.
Qed.

Lemma reversing_sort_sorts : SortsSlices reversing_sort.
Proof.
  intros less l. unfold reversing_sort. split.
  - by rewrite insertion_sort_perm, reverse_Permutation.
  - apply insertion_sort_sorted.
Qed.

(** *** Listing on concrete inputs *)



(** Another sort that meets it keeps them in order. *)
Lemma equal_times_kept :
  ListSessions insertion_sort
    (Some (sessions_listed (Some [ses_a; ses_d])), None)
  = ([EvRequest PostSessionList], Done ([ses_a; ses_d], None))
  ∧ stable_on [ses_a; ses_d] [ses_a; ses_d].
Proof. split; [vm_compute; reflexivity|]. by intros t. Qed.

(** * Further properties *)

(** ** Resolution: outcomes and membership *)

Section ResolutionOutcomes.

Variable rangeModels :
  RangeSite → gmap string ModelInfo.t → list (string * ModelInfo.t).
Hypothesis rangeModels_perm :
  ∀ site m, rangeModels site m ≡ₚ map_to_list m.

Lemma yields_or_none response ps :
  Exists (yieldsModel response) ps
  ∨ Forall (λ q, ¬ yieldsModel response q) ps.
Proof.
  induction ps as [|p ps [X|F]].
  - right. constructor.
  - left. by right.
  - destruct (yieldsModel_cases rangeModels rangeModels_perm response p)
      as [Y|N].
    + left. by left.
    + right. by constructor.
Qed.

Lemma resolve_returns state response :
  Exists (yieldsModel response) (ProviderList.Providers response) →
  ∃ p m, resolve rangeModels state (seedDefault rangeModels response)
         = Done (ModelSelectedMsg p m).
Proof.
  intros X.
  destruct (seedDefault_some rangeModels rangeModels_perm response X)
    as (p & m & ->).
  unfold resolve, fallback, selected.
  destruct (reconcileLoop rangeModels state 0 _ (None, None))
    as [[cp|] [cm|]]; simpl; by eauto.
Qed.

Lemma resolve_panics state response :
  ProviderList.Providers response ≠ [] →
  Forall (λ q, ¬ yieldsModel response q) (ProviderList.Providers response) →
  resolve rangeModels state (seedDefault rangeModels response) = Panic.
Proof.
  intros NE F.
  destruct (ProviderList.Providers response) as [|p ps] eqn:E; [done|].
  rewrite (seedDefault_none rangeModels rangeModels_perm response p ps E F).
  rewrite (resolve_missing rangeModels rangeModels_perm).
  - unfold selected. simpl. by destruct (last (p :: ps)).
  - intros P. rewrite <- E in P. apply persisted_yields in P.
    rewrite E in P. apply Exists_exists in P as (q & Iq & Yq).
    rewrite Forall_forall in F. by apply (F q).
Qed.

(** X1.  The command returns a message exactly when the listing
    succeeded with status 200 and a decoded body in which some provider
    yields a default model; it returns nothing exactly when the listing
    failed, had another status, or listed no provider; in the remaining
    cases it panics. *)
Theorem InitializeProvider_outcomes a resp err :
  let outcome := (InitializeProvider rangeModels a (resp, err)).2 in
  ((∃ p m, outcome = Done (Some (ModelSelectedMsg p m)))
   ↔ err = None
     ∧ ∃ r response,
         resp = Some r
         ∧ PostProviderListResponse.StatusCode r = 200%Z
         ∧ PostProviderListResponse.JSON200 r = Some response
         ∧ Exists (yieldsModel response) (ProviderList.Providers response))
  ∧ (outcome = Done None
     ↔ err ≠ None
       ∨ ∃ r, resp = Some r
           ∧ (PostProviderListResponse.StatusCode r ≠ 200%Z
              ∨ ∃ response,
                  PostProviderListResponse.JSON200 r = Some response
                  ∧ ProviderList.Providers response = []))
  ∧ (outcome = Panic
     ↔ err = None
       ∧ (resp = None
          ∨ ∃ r, resp = Some r
              ∧ PostProviderListResponse.StatusCode r = 200%Z
              ∧ (PostProviderListResponse.JSON200 r = None
                 ∨ ∃ response,
                     PostProviderListResponse.JSON200 r = Some response
                     ∧ ProviderList.Providers response ≠ []
                     ∧ Forall (λ q, ¬ yieldsModel response q)
                              (ProviderList.Providers response)))).
Proof.
  intros outcome. subst outcome.
  destruct err as [e|].
  { simpl. split; [|split].
    - split; [by intros (? & ? & ?)|by intros [? _]].
    - split; [by left|done].
    - split; [done|by intros [? _]]. }
  destruct resp as [r|].
  { destruct (decide (PostProviderListResponse.StatusCode r = 200%Z)) as [S|S].
    - destruct (PostProviderListResponse.JSON200 r) as [response|] eqn:J.
      + rewrite (InitializeProvider_ok rangeModels a r response S J).
        destruct (ProviderList.Providers response) as [|q qs] eqn:E.
        * simpl. split; [|split].
          -- split; [by intros (? & ? & ?)|].
             intros (_ & r' & response' & [= <-] & _ & J' & X).
             rewrite J in J'. injection J' as <-. rewrite E in X.
             by apply Exists_nil in X.
          -- split; [|done]. intros _. right. exists r. split; [done|].
             right. by exists response.
          -- split; [done|].
             intros (_ & [?|(r' & [= <-] & _ & [J'|(response' & J' & NE & _)])]);
               [done|by rewrite J in J'|].
             rewrite J in J'. injection J' as <-. by rewrite E in NE.
        * rewrite bool_decide_eq_false_2 by done. simpl.
          destruct (yields_or_none response (ProviderList.Providers response))
            as [X|F].
          -- destruct (resolve_returns (App.State a) response X)
               as (p & m & ->).
             split; [|split].
             ++ split; [|by eauto]. intros _. split; [done|].
                by exists r, response.
             ++ split; [done|].
                intros [?|(r' & [= <-] & [?|(response' & J' & E')])];
                  [done|done|].
                rewrite J in J'. injection J' as <-. by rewrite E in E'.
             ++ split; [done|].
                intros (_ & [?|(r' & [= <-] & _ & [J'|(response' & J' & _ & F)])]);
                  [done|by rewrite J in J'|].
                rewrite J in J'. injection J' as <-.
                apply Exists_exists in X as (x & Ix & Yx).
                rewrite Forall_forall in F. by destruct (F x Ix).
          -- rewrite resolve_panics by (done || by rewrite E).
             split; [|split].
             ++ split; [by intros (? & ? & ?)|].
                intros (_ & r' & response' & [= <-] & _ & J' & X).
                rewrite J in J'. injection J' as <-.
                apply Exists_exists in X as (x & Ix & Yx).
                rewrite Forall_forall in F. by destruct (F x Ix).
             ++ split; [done|].
                intros [?|(r' & [= <-] & [?|(response' & J' & E')])];
                  [done|done|].
                rewrite J in J'. injection J' as <-. by rewrite E in E'.
             ++ split; [|done]. intros _. split; [done|]. right.
                exists r. split; [done|]. split; [done|]. right.
                exists response. split; [done|]. split; [by rewrite E|done].
      + unfold InitializeProvider, bind, lift, emit, deref. simpl.
        rewrite bool_decide_eq_false_2 by (by intros ?). rewrite J. simpl.
        split; [|split].
        * split; [by intros (? & ? & ?)|].
          intros (_ & r' & response' & [= <-] & _ & J' & _).
          by rewrite J in J'.
        * split; [done|].
          intros [?|(r' & [= <-] & [?|(response' & J' & _)])];
            [done|done|by rewrite J in J'].
        * split; [|done]. intros _. split; [done|]. right. exists r.
          split; [done|]. split; [done|]. by left.
    - unfold InitializeProvider, bind, lift, emit, slog_Error, ret. simpl.
      rewrite bool_decide_eq_true_2 by done. simpl. split; [|split].
      + split; [by intros (? & ? & ?)|].
        by intros (_ & r' & response' & [= <-] & S' & _).
      + split; [|done]. intros _. right. exists r. split; [done|]. by left.
      + split; [done|].
        by intros (_ & [?|(r' & [= <-] & S' & _)]). }
  simpl. split; [|split].
  - split; [by intros (? & ? & ?)|]. by intros (_ & r & response & ? & _).
  - split; [done|]. by intros [?|(r & ? & _)].
  - split; [|done]. intros _. split; [done|]. by left.
Qed.

End ResolutionOutcomes.

Section ResolutionMembership.

Variable rangeModels :
  RangeSite → gmap string ModelInfo.t → list (string * ModelInfo.t).
Hypothesis rangeModels_perm :
  ∀ site m, rangeModels site m ≡ₚ map_to_list m.

Lemma getDefaultModel_owned site response p m :
  getDefaultModel rangeModels site response p = Some m →
  m = ModelInfo.zero ∨ ∃ k, ProviderInfo.Models p !! k = Some m.
Proof.
  destruct (ProviderList.Default response !! ProviderInfo.Id p) as [k|] eqn:D.
  - rewrite (getDefaultModel_entry rangeModels site response p k D).
    intros [= <-].
    destruct (ProviderInfo.Models p !! k) as [m'|] eqn:L; simpl.
    + right. by exists k.
    + by left.
  - intros G. right.
    by apply (getDefaultModel_ranged rangeModels rangeModels_perm
                site response p m D).
Qed.

Lemma seedLoop_seeded response known i ps dp dm l :
  (∀ q, q ∈ ps → q ∈ known) →
  seeded rangeModels response known dp dm →
  seeded rangeModels response known
    (seedLoop rangeModels response i ps (dp, dm, l)).1.1
    (seedLoop rangeModels response i ps (dp, dm, l)).1.2.
Proof.
  revert i dp dm l. induction ps as [|q ps IH]; intros i dp dm l K H; [done|].
  simpl. destruct (isNil dp || isNil dm).
  - apply IH.
    + intros x Ix. apply K. by right.
    + split; [apply K; left|]. intros m E. by exists (AtSeed i).
  - apply IH; [|done]. intros x Ix. apply K. by right.
Qed.

Lemma seedDefault_seeded response :
  seeded rangeModels response (ProviderList.Providers response)
    (seedDefault rangeModels response).1.1
    (seedDefault rangeModels response).1.2.
Proof.
  unfold seedDefault.
  destruct (findAnthropic (ProviderList.Providers response)) as [a|] eqn:A.
  - apply seedLoop_seeded; [done|].
    apply findAnthropic_Some in A as (l1 & l2 & -> & _).
    split; [apply elem_of_app; right; left|].
    intros m E. by exists AtAnthropic.
  - by apply seedLoop_seeded.
Qed.

Lemma same_id_same_provider (ps : list ProviderInfo.t) p q :
  NoDup (ProviderInfo.Id <$> ps) →
  p ∈ ps → q ∈ ps → ProviderInfo.Id p = ProviderInfo.Id q → p = q.
Proof.
  induction ps as [|x ps IH]; intros N Ip Iq E; [by apply elem_of_nil in Ip|].
  rewrite fmap_cons in N. apply NoDup_cons in N as [Nx N].
  apply elem_of_cons in Ip as [->|Ip]; apply elem_of_cons in Iq as [->|Iq].
  - done.
  - destruct Nx. rewrite E. by apply list_elem_of_fmap_2.
  - destruct Nx. rewrite <- E. by apply list_elem_of_fmap_2.
  - by apply IH.
Qed.

(** X2.  A message the command returns names a provider of the
    listing, and a model that one of the listed providers with that id
    holds, or the zero-valued model a defaults entry with an unknown key
    gives; when the provider ids of the listing are pairwise distinct,
    the model is one of the returned provider's own, or that zero-valued
    model. *)
Theorem selection_is_listed a r response t p m :
  PostProviderListResponse.JSON200 r = Some response →
  InitializeProvider rangeModels a (Some r, None)
  = (t, Done (Some (ModelSelectedMsg p m))) →
  p ∈ ProviderList.Providers response
  ∧ (m = ModelInfo.zero
     ∨ ∃ p' k, p' ∈ ProviderList.Providers response
         ∧ ProviderInfo.Id p' = ProviderInfo.Id p
         ∧ ProviderInfo.Models p' !! k = Some m)
  ∧ (NoDup (ProviderInfo.Id <$> ProviderList.Providers response) →
     m = ModelInfo.zero ∨ ∃ k, ProviderInfo.Models p !! k = Some m).
Proof.
  intros J H.
  assert (S : PostProviderListResponse.StatusCode r = 200%Z).
  { destruct (decide (PostProviderListResponse.StatusCode r = 200%Z));
      [done|].
    unfold InitializeProvider, bind, lift, emit, slog_Error, ret in H.
    simpl in H. by rewrite bool_decide_eq_true_2 in H. }
  rewrite (InitializeProvider_ok rangeModels a r response S J) in H.
  case_bool_decide; [done|]. injection H as _ H.
  pose proof (seedDefault_seeded response) as SD.
  pose proof (seedDefault_providers rangeModels response) as SP.
  destruct (seedDefault rangeModels response) as [[dp dm] ps].
  simpl in SD, SP. subst ps. unfold resolve in H.
  pose proof (reconcile_reconciled rangeModels rangeModels_perm
                (App.State a) (ProviderList.Providers response)) as R.
  destruct (reconcileLoop rangeModels (App.State a) 0 _ (None, None))
    as [cp [cm|]]; unfold reconciled in R; simpl in R.
  - destruct R as ((q & -> & Iq & Eq) & Em & (p' & k & Ip' & Ep' & L)).
    unfold fallback, selected in H. simpl in H. injection H as <- <-.
    split; [done|]. split.
    + right. exists p', k. split; [done|]. split; [congruence|done].
    + intros N. right. exists k.
      by rewrite (same_id_same_provider _ q p' N Iq Ip' ltac:(congruence)).
  - unfold fallback in H. simpl in H. rewrite orb_true_r in H.
    unfold selected in H. simpl in H.
    destruct dp as [dp|]; simpl in H; [|done].
    destruct dm as [dm|]; simpl in H; [|done].
    injection H as <- <-. destruct SD as [Idp G].
    destruct (G dm eq_refl) as [site G'].
    apply getDefaultModel_owned in G' as [->|[k L]].
    + split; [done|]. split; [by left|]. intros _. by left.
    + split; [done|]. split.
      * right. by exists dp, k.
      * intros _. right. by exists k.
Qed.

(** X3.  A defaults entry for "anthropic" whose key is not in the
    provider's model mapping does not fall back to one of its models: the
    default model is the zero-valued model, and unless the persisted
    selection is found that is the model the command returns. *)
Theorem stale_default_selects_zero_model a r response l1 anthropic l2 k :
  PostProviderListResponse.StatusCode r = 200%Z →
  PostProviderListResponse.JSON200 r = Some response →
  ProviderList.Providers response = l1 ++ anthropic :: l2 →
  ProviderInfo.Id anthropic = "anthropic" →
  Forall (λ p, ProviderInfo.Id p ≠ "anthropic") l2 →
  ProviderList.Default response !! "anthropic" = Some k →
  ProviderInfo.Models anthropic !! k = None →
  ¬ persisted (App.State a) (ProviderList.Providers response) →
  InitializeProvider rangeModels a (Some r, None)
  = ([EvRequest PostProviderList],
     Done (Some (ModelSelectedMsg anthropic ModelInfo.zero))).
Proof.
  intros S J E Ia F D L NP.
  assert (D' : ProviderList.Default response !! ProviderInfo.Id anthropic
               = Some k) by (by rewrite Ia).
  assert (Y : yieldsModel response anthropic) by (left; by eexists).
  rewrite (InitializeProvider_ok rangeModels a r response S J).
  rewrite bool_decide_eq_false_2 by (rewrite E, length_app; simpl; lia).
  rewrite (seedDefault_anthropic rangeModels rangeModels_perm
             response l1 anthropic l2 E Ia F Y).
  rewrite (getDefaultModel_entry rangeModels AtAnthropic _ _ _ D'), L.
  by rewrite (resolve_missing rangeModels rangeModels_perm).
Qed.

End ResolutionMembership.

(** *** Outcomes on concrete listings *)

Lemma InitializeProvider_outcomes_witness :
  (∃ p m, (InitializeProvider rangeSorted fresh_app
             (listed listing_scenario)).2
          = Done (Some (ModelSelectedMsg p m)))
  ∧ (InitializeProvider rangeSorted fresh_app
       (Some (ok_response listing_empty), Some "connection refused")).2
    = Done None
  ∧ (InitializeProvider rangeSorted fresh_app (None, None)).2 = Panic.
Proof.
  split; [|split].
  - apply (InitializeProvider_outcomes rangeSorted rangeSorted_perm fresh_app
             (Some (ok_response listing_scenario)) None).
    split; [done|]. exists (ok_response listing_scenario), listing_scenario.
    split; [done|]. split; [done|]. split; [done|].
    right. left. left. exists "claude-3". vm_compute. reflexivity.
  - apply (InitializeProvider_outcomes rangeSorted rangeSorted_perm fresh_app
             (Some (ok_response listing_empty)) (Some "connection refused")).
    by left.
  - apply (InitializeProvider_outcomes rangeSorted rangeSorted_perm fresh_app
             None None).
    split; [done|]. by left.
Defined.

Lemma selection_is_listed_witness :
  anthropic_full ∈ ProviderList.Providers listing_scenario
  ∧ (claude3 = ModelInfo.zero
     ∨ ∃ p' k, p' ∈ ProviderList.Providers listing_scenario
         ∧ ProviderInfo.Id p' = ProviderInfo.Id anthropic_full
         ∧ ProviderInfo.Models p' !! k = Some claude3)
  ∧ (NoDup (ProviderInfo.Id <$> ProviderList.Providers listing_scenario) →
     claude3 = ModelInfo.zero
     ∨ ∃ k, ProviderInfo.Models anthropic_full !! k = Some claude3).
Proof.
  apply (selection_is_listed rangeSorted rangeSorted_perm fresh_app
           (ok_response listing_scenario) listing_scenario
           [EvRequest PostProviderList] anthropic_full claude3).
  - reflexivity.
  - vm_compute. reflexivity.
Defined.

Lemma stale_default_selects_zero_model_witness :
  InitializeProvider rangeSorted fresh_app
    (Some (ok_response listing_scenario_literal), None)
  = ([EvRequest PostProviderList],
     Done (Some (ModelSelectedMsg anthropic_bare ModelInfo.zero))).
Proof.
  apply (stale_default_selects_zero_model rangeSorted rangeSorted_perm
           fresh_app (ok_response listing_scenario_literal)
           listing_scenario_literal [openai_bare] anthropic_bare []
           "claude-3").
  - reflexivity.
  - reflexivity.
  - reflexivity.
  - reflexivity.
  - constructor.
  - vm_compute. reflexivity.
  - vm_compute. reflexivity.
  - apply fresh_state_not_persisted. repeat constructor; discriminate.
Defined.

(** ** Sending: edges, invariants and composition *)

Ltac unfold_send :=
  unfold SendChatMessage, ensureSession, CreateSession, bind, lift, ret,
    emit, deref.

(** X4.  When the creation is answered with status 200 but no decoded
    session, [CreateSession] reports no error, the nil session is stored,
    and the send panics on its id. *)
Theorem creation_without_body_panics a env text attachments current r :
  App.Session a = Some current →
  SessionInfo.Id current = "" →
  creation env = (Some r, None) →
  PostSessionCreateResponse.StatusCode r = 200%Z →
  PostSessionCreateResponse.JSON200 r = None →
  SendChatMessage a env text attachments
  = ([EvRequest PostSessionCreate; EvSetSession None], Panic).
Proof.
  intros S I C St J. unfold_send.
  rewrite S. simpl. rewrite decide_True by done. rewrite C. simpl.
  rewrite bool_decide_eq_false_2 by (by rewrite St; intros ?).
  by rewrite J.
Qed.

(** X5.  With an active session (a non-empty id) a send asks the service
    for nothing and leaves the session alone: it appends the optimistic
    message, tagged with that session, and returns the notification and
    the chat request, whatever the creation would have answered. *)
Theorem send_with_active_session a env text attachments session :
  App.Session a = Some session →
  SessionInfo.Id session ≠ "" →
  let m := optimistic env (SessionInfo.Id session) text in
  SendChatMessage a env text attachments
  = ([EvAppendMessage m],
     Done (App.with_Messages a (App.Messages a ++ [m]),
           Batch [CmdHandler (OptimisticMessageAddedMsg m);
                  PostChat (MessageInfo.Parts m)])).
Proof.
  intros S I m. unfold_send.
  rewrite S. simpl. rewrite decide_False by done. simpl. by rewrite S.
Qed.

(** X6.  A send that returns never touches the persisted state or the
    selection and never drops or reorders a message: either nothing is
    appended and no chat request is dispatched, or one message is
    appended and one chat request is dispatched. *)
Theorem send_preserves_app a env text attachments t a' cmd :
  SendChatMessage a env text attachments = (t, Done (a', cmd)) →
  App.State a' = App.State a
  ∧ App.Provider a' = App.Provider a
  ∧ App.Model a' = App.Model a
  ∧ ((App.Messages a' = App.Messages a ∧ payloads a' cmd = [])
     ∨ (∃ m, App.Messages a' = App.Messages a ++ [m]
             ∧ length (payloads a' cmd) = 1)).
Proof.
  unfold_send. destruct (creation env) as [resp err].
  repeat (case_match; simplify_eq/=); intros; simplify_eq/=;
    repeat split; (by left) || (right; by eexists).
Qed.

(** X7.  The chat request of a send, run at once, carries what the
    optimistic message shows: its session and its parts, with the ids of
    the selection. *)
Theorem send_dispatches_what_it_shows a env text attachments t a' cmds
    provider model :
  SendChatMessage a env text attachments = (t, Done (a', Batch cmds)) →
  App.Provider a = Some provider →
  App.Model a = Some model →
  ∃ m, last (App.Messages a') = Some m
    ∧ payloads a' (Batch cmds)
      = [Done {| PostSessionChatJSONRequestBody.SessionID :=
                   MessageMetadata.SessionID (MessageInfo.Metadata m);
                 PostSessionChatJSONRequestBody.Parts := MessageInfo.Parts m;
                 PostSessionChatJSONRequestBody.ProviderID :=
                   ProviderInfo.Id provider;
                 PostSessionChatJSONRequestBody.ModelID :=
                   ModelInfo.Id model |}].
Proof.
  unfold_send. destruct (creation env) as [resp err]. intros H P Mo.
  repeat (case_match; simplify_eq/=);
    (eexists; split; [apply last_snoc|]);
    unfold chatBody, deref; simpl;
    repeat (match goal with
            | E : ?x = Some _ |- context [?x] => rewrite E
            end);
    done.
Qed.

(** X8.  Two sends in a row, the first from an empty session id: the
    session the first one creates (with a non-empty id) serves the second,
    which asks for no creation; both optimistic messages are appended, in
    the order of the sends, and both name that session. *)
Theorem second_send_reuses_session a env1 env2 text1 text2 attachments1
    attachments2 current r session :
  App.Session a = Some current →
  SessionInfo.Id current = "" →
  creation env1 = (Some r, None) →
  PostSessionCreateResponse.StatusCode r = 200%Z →
  PostSessionCreateResponse.JSON200 r = Some session →
  SessionInfo.Id session ≠ "" →
  let m1 := optimistic env1 (SessionInfo.Id session) text1 in
  let m2 := optimistic env2 (SessionInfo.Id session) text2 in
  ∃ t1 a1 c1 a2 c2,
    SendChatMessage a env1 text1 attachments1 = (t1, Done (a1, c1))
    ∧ SendChatMessage a1 env2 text2 attachments2
      = ([EvAppendMessage m2], Done (a2, c2))
    ∧ App.Session a2 = Some session
    ∧ App.Messages a2 = App.Messages a ++ [m1; m2].
Proof.
  intros S I C St J NE m1 m2.
  eexists _, _, _, _, _. split; [|split; [|split]].
  - unfold_send. rewrite S. simpl. rewrite decide_True by done.
    rewrite C. simpl.
    rewrite bool_decide_eq_false_2 by (by rewrite St; intros ?).
    rewrite J. simpl. reflexivity.
  - unfold_send. simpl. rewrite decide_False by done. simpl. reflexivity.
  - reflexivity.
  - simpl. by rewrite <- app_assoc.
Qed.

(** X9.  The ids of the optimistic messages of two sends are equal
    exactly when the two sends read the same nanosecond clock value: the
    ids tell sends apart as far as the clock does, and no further. *)
Theorem optimistic_ids_follow_clock a1 a2 env1 env2 text1 text2
    attachments1 attachments2 t1 t2 a1' a2' cmds1 cmds2 m1 m2 :
  SendChatMessage a1 env1 text1 attachments1 = (t1, Done (a1', Batch cmds1)) →
  SendChatMessage a2 env2 text2 attachments2 = (t2, Done (a2', Batch cmds2)) →
  last (App.Messages a1') = Some m1 →
  last (App.Messages a2') = Some m2 →
  MessageInfo.Id m1 = MessageInfo.Id m2
  ↔ now_UnixNano env1 = now_UnixNano env2.
Proof.
  intros H1 H2 L1 L2.
  apply SendChatMessage_batch in H1 as (b1 & s1 & ->).
  apply SendChatMessage_batch in H2 as (b2 & s2 & ->).
  simpl in L1, L2. rewrite last_snoc in L1, L2.
  injection L1 as <-. injection L2 as <-. split.
  - apply optimistic_id_inj.
  - intros E. simpl. by rewrite E.
Qed.

(** X10.  The creation time of the optimistic message is the clock in
    seconds squeezed into a [float32]: exact below 2^24, and for the
    clock values up to 2^31 off by at most 64 seconds. *)
Theorem optimistic_time_within_64s a env text attachments t a' cmds m :
  SendChatMessage a env text attachments = (t, Done (a', Batch cmds)) →
  last (App.Messages a') = Some m →
  (0 ≤ now_Unix env < 2 ^ 31)%Z →
  let created :=
    MessageTime.Created (MessageMetadata.Time (MessageInfo.Metadata m)) in
  (Z.abs (created - now_Unix env) ≤ 64)%Z
  ∧ ((now_Unix env < 2 ^ 24)%Z → created = now_Unix env).
Proof.
  intros H L B created.
  apply SendChatMessage_batch in H as (b & s & ->).
  simpl in L. rewrite last_snoc in L. injection L as <-.
  subst created. simpl.
  destruct (decide (now_Unix env < 2 ^ 24)%Z) as [Lt|Ge].
  - rewrite float32_of_int64_exact by lia. split; [lia|done].
  - split; [|lia].
    etrans; [apply float32_of_int64_near; lia|].
    change 64%Z with (2 ^ 6)%Z. apply Z.pow_le_mono_r; [lia|].
    assert (Z.log2 (Z.abs (now_Unix env)) < 31)%Z; [|lia].
    apply Z.log2_lt_pow2; lia.
Qed.

(** X11.  Run with no session, no provider or no model selected, the
    chat request panics before anything is sent; otherwise exactly one
    request goes out, built from the [App] as it is when the request
    runs. *)
Theorem dispatch_needs_selection a parts sent :
  (runPostChat a parts sent = ([], Panic)
   ↔ App.Session a = None ∨ App.Provider a = None ∨ App.Model a = None)
  ∧ (∀ session provider model,
       App.Session a = Some session →
       App.Provider a = Some provider →
       App.Model a = Some model →
       ∃ logs msg,
         runPostChat a parts sent
         = (EvRequest (PostSessionChat
              {| PostSessionChatJSONRequestBody.SessionID :=
                   SessionInfo.Id session;
                 PostSessionChatJSONRequestBody.Parts := parts;
                 PostSessionChatJSONRequestBody.ProviderID :=
                   ProviderInfo.Id provider;
                 PostSessionChatJSONRequestBody.ModelID :=
                   ModelInfo.Id model |}) :: logs,
            Done msg)
         ∧ Forall (λ e, ∀ r, e ≠ EvRequest r) logs).
Proof.
  destruct sent as [response err].
  unfold runPostChat, chatBody, bind, lift, emit, slog_Error, ret, deref.
  split.
  - destruct (App.Session a), (App.Provider a), (App.Model a); simpl;
      try (split; [intros _; by eauto|done]).
    split; [|by intros [?|[?|?]]].
    repeat case_match; simplify_eq/=; done.
  - intros session provider model -> -> ->. simpl.
    repeat case_match; simplify_eq/=;
      eexists _, _; (split; [reflexivity|]); repeat constructor; done.
Qed.

(** X12.  A chat request that fails, by a transport error or by a status
    other than 200, is logged and surfaces as an error toast with the
    same text; one that succeeds is silent: no record, no message. *)
Theorem dispatch_toasts_failures a parts body response err :
  chatBody a parts = Done body →
  ∃ logs msg,
    runPostChat a parts (response, err)
    = (EvRequest (PostSessionChat body) :: logs, Done msg)
    ∧ (msg = None ↔ err = None ∧ (response = None ∨ response = Some 200%Z))
    ∧ (msg = None → logs = [])
    ∧ (∀ text, msg = Some (ErrorToastMsg text) →
               logs = [EvLog LevelError text []])
    ∧ (msg = None ∨ ∃ text, msg = Some (ErrorToastMsg text)).
Proof.
  intros B. unfold runPostChat, bind, lift, emit, slog_Error, ret.
  rewrite B. simpl. destruct err as [e|]; simpl.
  - eexists _, _. split; [reflexivity|]. split; [split; [done|by intros [? _]]|].
    split; [done|]. split; [by intros text [= <-]|]. right. by eexists.
  - destruct response as [code|]; simpl.
    + case_bool_decide as N; simpl.
      * eexists _, _. split; [reflexivity|].
        split; [split; [done|intros [_ [?|[= ->]]]; done]|].
        split; [done|]. split; [by intros text [= <-]|]. right. by eexists.
      * subst code.
        eexists _, _. split; [reflexivity|].
        split; [split; [intros _; split; [done|by right]|done]|].
        split; [done|]. split; [done|]. by left.
    + eexists _, _. split; [reflexivity|].
      split; [split; [intros _; split; [done|by left]|done]|].
      split; [done|]. split; [done|]. by left.
Qed.

(** ** Start-up *)

Lemma slash_is_slash : String slash "" = "/".
Proof. reflexivity. Qed.

Lemma strings_Split_cons s c :
  ∃ piece pieces, strings_Split s c = piece :: pieces.
Proof.
  induction s as [|d s (piece & pieces & IH)]; simpl; [by eauto|].
  destruct (Ascii.eqb d c); [by eauto|]. rewrite IH. by eauto.
Qed.

Lemma strings_Join_cons x y rest sep :
  strings_Join (x :: y :: rest) sep
  = x +:+ sep +:+ strings_Join (y :: rest) sep.
Proof. reflexivity. Qed.

(** Joining the pieces of a split gives the string back. *)
Lemma strings_Join_Split s c :
  strings_Join (strings_Split s c) (String c "") = s.
Proof.
  induction s as [|d s IH]; [done|]. simpl.
  destruct (Ascii.eqb d c) eqn:E.
  - apply Ascii.eqb_eq in E as ->.
    destruct (strings_Split_cons s c) as (piece & pieces & P).
    rewrite P in *. rewrite strings_Join_cons, IH. reflexivity.
  - destruct (strings_Split_cons s c) as (piece & pieces & P).
    rewrite P in *. destruct pieces as [|q pieces].
    + simpl in *. by rewrite IH.
    + rewrite strings_Join_cons in IH |- *. rewrite <- IH. reflexivity.
Qed.

(** The first piece holds no separator, and the rest is what follows the
    first separator. *)
Lemma strings_Split_first s c piece pieces :
  strings_Split s c = piece :: pieces →
  occurs c piece = false
  ∧ (occurs c s = false → pieces = [] ∧ piece = s)
  ∧ (occurs c s = true →
     pieces ≠ []
     ∧ s = piece +:+ String c (strings_Join pieces (String c ""))).
Proof.
  revert piece pieces. induction s as [|d s IH]; intros piece pieces; simpl.
  - intros [= <- <-]. by repeat split.
  - destruct (Ascii.eqb d c) eqn:E; simpl.
    + intros [= <- <-]. apply Ascii.eqb_eq in E as ->.
      split; [done|]. split; [done|]. intros _. split.
      * by destruct (strings_Split_cons s c) as (? & ? & ->).
      * simpl. by rewrite strings_Join_Split.
    + destruct (strings_Split_cons s c) as (p0 & ps0 & P). rewrite P.
      intros [= <- <-]. destruct (IH p0 ps0 P) as (O & N & Y).
      split; [simpl; by rewrite E|]. split.
      * intros H. destruct (N H) as [-> ->]. done.
      * intros H. destruct (Y H) as [NE ->]. done.
Qed.

Lemma strings_Split_prefixed pid mid c :
  occurs c pid = false →
  strings_Split (pid +:+ String c mid) c = pid :: strings_Split mid c.
Proof.
  induction pid as [|d pid IH]; simpl.
  - intros _. by rewrite Ascii.eqb_refl.
  - intros H. apply orb_false_iff in H as [E O]. rewrite E, IH by done. done.
Qed.

(** What a successful [New] went through. *)
Lemma New_inv version appInfo env t na :
  New version appInfo env = (t, Done (Some na, None)) →
  ∃ r configInfo stored s,
    configGet env = (Some r, None)
    ∧ PostConfigGetResponse.StatusCode r = 200%Z
    ∧ PostConfigGetResponse.JSON200 r = Some configInfo
    ∧ stored = match (loadState env).2 with
               | Some _ => Some (newState env)
               | None => (loadState env).1
               end
    ∧ applyConfig (defaultKeybinds configInfo) stored = Done (Some s)
    ∧ na = {| app := {| App.State := s; App.Provider := None;
                        App.Model := None;
                        App.Session := Some SessionInfo.zero;
                        App.Messages := [] |};
              Info := appInfo; Version := version;
              StatePath := statePath env;
              Config := defaultKeybinds configInfo |}
    ∧ saves t = match (loadState env).2 with
                | Some _ => [(statePath env, newState env)]
                | None => []
                end
    ∧ themes_set t = (if decide (State.Theme s ≠ "")
                      then [State.Theme s] else [])
    ∧ system_themes t = match terminal env with
                        | Some term =>
                            if decide (State.Theme s = "system")
                            then [term] else []
                        | None => []
                        end.
Proof.
  unfold New, startState, startTheme, wbind, wlift, wret, effect, wlog,
    deref.
  destruct (configGet env) as [[r|] [e|]]; simpl; try done.
  case_bool_decide as St; simpl; [done|].
  destruct (PostConfigGetResponse.JSON200 r) as [configInfo|] eqn:J;
    simpl; [|done].
  destruct (loadState env) as [loaded [le|]]; simpl;
    (match goal with
     | |- context [applyConfig ?c ?x] =>
         destruct (applyConfig c x) as [[s|]|] eqn:A
     end; simpl);
    destruct (loadThemes env); simpl; try done;
    destruct (decide (State.Theme s ≠ "")); simpl;
    try (destruct (decide (State.Theme s = "system")); simpl;
         try (destruct (terminal env); simpl));
    intros [= <- <-]; eexists r, configInfo, _, s;
    repeat split; try done; simpl;
    try (by destruct (decide (State.Theme s ≠ "")));
    try (by destruct (decide (State.Theme s = "system")));
    match goal with
    | N : ¬ _ ≠ _, E : _ = "system" |- _ =>
        destruct N; by rewrite E
    end.
Qed.

Lemma defaultKeybinds_Theme c :
  ConfigInfo.Theme (defaultKeybinds c) = ConfigInfo.Theme c.
Proof. unfold defaultKeybinds. by destruct (ConfigInfo.Keybinds c). Qed.

Lemma defaultKeybinds_Model c :
  ConfigInfo.Model (defaultKeybinds c) = ConfigInfo.Model c.
Proof. unfold defaultKeybinds. by destruct (ConfigInfo.Keybinds c). Qed.

(** The configuration is applied to a state there is. *)
Lemma applyConfig_stored c s0 :
  ∃ s, applyConfig c (Some s0) = Done (Some s).
Proof.
  unfold applyConfig, deref.
  destruct (ConfigInfo.Theme c); simpl;
    destruct (ConfigInfo.Model c) as [model|]; simpl; try (by eauto);
    destruct (strings_Split_cons model slash) as (piece & pieces & ->);
    simpl; by eauto.
Qed.

Lemma applyConfig_inv c stored s :
  applyConfig c stored = Done (Some s) →
  ∃ s0, stored = Some s0
    ∧ State.Theme s = default (State.Theme s0) (ConfigInfo.Theme c)
    ∧ match ConfigInfo.Model c with
      | Some model =>
          ∃ piece pieces,
            strings_Split model slash = piece :: pieces
            ∧ State.Provider s = piece
            ∧ State.Model s = strings_Join pieces "/"
      | None =>
          State.Provider s = State.Provider s0
          ∧ State.Model s = State.Model s0
      end.
Proof.
  unfold applyConfig, deref. destruct stored as [s0|].
  - destruct (ConfigInfo.Theme c); simpl;
      destruct (ConfigInfo.Model c) as [model|]; simpl;
      try (destruct (strings_Split_cons model slash)
             as (piece & pieces & P); rewrite P; simpl);
      intros [= <-]; exists s0; (split; [done|]); (split; [done|]);
      try done; by exists piece, pieces.
  - destruct (ConfigInfo.Theme c); simpl; [done|].
    destruct (ConfigInfo.Model c) as [model|]; simpl; [|done].
    by destruct (strings_Split_cons model slash) as (piece & pieces & ->).
Qed.

(** [New], the configuration fetched and a state at hand. *)
Lemma New_ok version appInfo env r c s0 :
  configGet env = (Some r, None) →
  PostConfigGetResponse.StatusCode r = 200%Z →
  PostConfigGetResponse.JSON200 r = Some c →
  match (loadState env).2 with
  | Some _ => Some (newState env)
  | None => (loadState env).1
  end = Some s0 →
  ∃ t na, New version appInfo env = (t, Done (Some na, None)).
Proof.
  intros G St J L.
  unfold New, startState, startTheme, wbind, wlift, wret, effect, wlog,
    deref.
  rewrite G. simpl. rewrite bool_decide_eq_false_2 by (by intros ?).
  rewrite J. simpl.
  destruct (applyConfig_stored (defaultKeybinds c) s0) as (s & A).
  destruct (loadState env) as [loaded [le|]]; simpl in *; simplify_eq;
    rewrite A; simpl;
    destruct (loadThemes env); simpl;
    destruct (decide (State.Theme s ≠ "")); simpl;
    try (destruct (decide (State.Theme s = "system")); simpl;
         try (destruct (terminal env); simpl));
    by eauto.
Qed.

(** [New] without a configuration. *)
Lemma New_refused version appInfo env :
  ((configGet env).2 ≠ None
   ∨ ∃ r, configGet env = (Some r, None)
       ∧ (PostConfigGetResponse.StatusCode r ≠ 200%Z
          ∨ PostConfigGetResponse.JSON200 r = None)) →
  ∃ e, New version appInfo env
       = ([SetRootPath (AppInfo.Root appInfo); Called PostConfigGet],
          Done (None, Some e)).
Proof.
  unfold New, wbind, wlift, wret, effect, deref.
  intros [E|(r & -> & [St|J])].
  - destruct (configGet env) as [resp [e|]]; [|done]. simpl. by eauto.
  - simpl. rewrite bool_decide_eq_true_2 by done. simpl. by eauto.
  - simpl. rewrite J. rewrite orb_true_r. simpl. by eauto.
Qed.

(** X13.  [New] returns an [App] exactly when the configuration request
    is answered with status 200 and a decoded body and there is a state,
    loaded or fresh; it returns an error exactly when the request fails,
    has another status or carries no body, and then nothing but the root
    path and the request has happened; it never returns both or
    neither. *)
Theorem New_outcomes version appInfo env :
  let stored := match (loadState env).2 with
                | Some _ => Some (newState env)
                | None => (loadState env).1
                end in
  let outcome := (New version appInfo env).2 in
  ((∃ na, outcome = Done (Some na, None))
   ↔ ∃ r c, configGet env = (Some r, None)
       ∧ PostConfigGetResponse.StatusCode r = 200%Z
       ∧ PostConfigGetResponse.JSON200 r = Some c
       ∧ is_Some stored)
  ∧ ((∃ e, outcome = Done (None, Some e))
     ↔ (configGet env).2 ≠ None
       ∨ ∃ r, configGet env = (Some r, None)
           ∧ (PostConfigGetResponse.StatusCode r ≠ 200%Z
              ∨ PostConfigGetResponse.JSON200 r = None))
  ∧ (∀ e, outcome = Done (None, Some e) →
          (New version appInfo env).1
          = [SetRootPath (AppInfo.Root appInfo); Called PostConfigGet])
  ∧ (∀ na e, outcome = Done (na, e) → (na = None ↔ e ≠ None)).
Proof.
  intros stored outcome. subst stored outcome.
  assert (R : ∀ e, (New version appInfo env).2 = Done (None, Some e) →
                   (configGet env).2 ≠ None
                   ∨ ∃ r, configGet env = (Some r, None)
                       ∧ (PostConfigGetResponse.StatusCode r ≠ 200%Z
                          ∨ PostConfigGetResponse.JSON200 r = None)).
  { intros e.
    unfold New, startState, startTheme, wbind, wlift, wret, effect, wlog,
      deref.
    destruct (configGet env) as [[r|] [e'|]]; simpl;
      [by left| |by left|done].
    case_bool_decide as St; simpl; [intros _; right; by eauto|].
    destruct (PostConfigGetResponse.JSON200 r) as [c|] eqn:J; simpl;
      [|intros _; right; by eauto].
    destruct (loadState env) as [loaded [le|]]; simpl;
      (match goal with
       | |- context [applyConfig ?c ?x] =>
           destruct (applyConfig c x) as [[s|]|]
       end; simpl);
      destruct (loadThemes env); simpl; try done;
      destruct (decide (State.Theme s ≠ "")); simpl;
      try (destruct (decide (State.Theme s = "system")); simpl;
           try (destruct (terminal env); simpl));
      done. }
  split; [|split; [|split]].
  - split.
    + intros [na H].
      destruct (New version appInfo env) as [t o] eqn:N. simpl in H. subst o.
      apply New_inv in N as (r & c & stored & s & G & St & J & -> & A & _).
      exists r, c. repeat (split; [done|]).
      apply applyConfig_inv in A as (s0 & -> & _). by eexists.
    + intros (r & c & G & St & J & [s0 L]).
      destruct (New_ok version appInfo env r c s0 G St J L) as (t & na & ->).
      by exists na.
  - split.
    + intros [e H]. by apply (R e).
    + intros H. destruct (New_refused version appInfo env H) as [e ->].
      by exists e.
  - intros e H. apply R in H.
    by destruct (New_refused version appInfo env H) as [e' ->].
  - intros na e H.
    destruct (New version appInfo env) as [t o] eqn:N. simpl in H. subst o.
    destruct na as [na|], e as [e|]; [| |done|].
    + exfalso. revert N.
      unfold New, startState, startTheme, wbind, wlift, wret, effect, wlog,
        deref.
      destruct (configGet env) as [[r|] [e'|]]; simpl; try done.
      case_bool_decide as St; simpl; [done|].
      destruct (PostConfigGetResponse.JSON200 r) as [c|] eqn:J; simpl;
        [|done].
      destruct (loadState env) as [loaded [le|]]; simpl;
        (match goal with
         | |- context [applyConfig ?c ?x] =>
             destruct (applyConfig c x) as [[s|]|]
         end; simpl);
        destruct (loadThemes env); simpl; try done;
        destruct (decide (State.Theme s ≠ "")); simpl;
        try (destruct (decide (State.Theme s = "system")); simpl;
             try (destruct (terminal env); simpl));
        done.
    + by split.
    + exfalso. revert N.
      unfold New, startState, startTheme, wbind, wlift, wret, effect, wlog,
        deref.
      destruct (configGet env) as [[r|] [e'|]]; simpl; try done.
      case_bool_decide as St; simpl; [done|].
      destruct (PostConfigGetResponse.JSON200 r) as [c|] eqn:J; simpl;
        [|done].
      destruct (loadState env) as [loaded [le|]]; simpl;
        (match goal with
         | |- context [applyConfig ?c ?x] =>
             destruct (applyConfig c x) as [[s|]|]
         end; simpl);
        destruct (loadThemes env); simpl; try done;
        destruct (decide (State.Theme s ≠ "")); simpl;
        try (destruct (decide (State.Theme s = "system")); simpl;
             try (destruct (terminal env); simpl));
        done.
Qed.

(** X14.  A configured model "provider/model" is split at its first "/":
    the provider stored in the state holds no "/", and rejoining provider
    and model with "/" gives the configured string back; a configured
    string without "/" becomes the provider, with an empty model. *)
Theorem New_splits_configured_model version appInfo env t na model :
  New version appInfo env = (t, Done (Some na, None)) →
  ConfigInfo.Model (Config na) = Some model →
  let s := App.State (app na) in
  occurs slash (State.Provider s) = false
  ∧ (occurs slash model = false
     → State.Provider s = model ∧ State.Model s = "")
  ∧ (occurs slash model = true
     → model = State.Provider s +:+ "/" +:+ State.Model s).
Proof.
  intros N C.
  apply New_inv in N as (r & c & stored & s & _ & _ & _ & _ & A & -> & _).
  simpl in *. rewrite defaultKeybinds_Model in C.
  apply applyConfig_inv in A as (s0 & _ & _ & M).
  rewrite defaultKeybinds_Model, C in M.
  destruct M as (piece & pieces & P & -> & ->).
  destruct (strings_Split_first model slash piece pieces P) as (O & No & Yes).
  split; [done|]. split.
  - intros H. by destruct (No H) as [-> ->].
  - intros H. by destruct (Yes H) as [_ E].
Qed.

(** X15.  The theme with which [New] ends is the configured one when
    there is one, whatever was stored; exactly that theme is set, once,
    unless it is empty, and then none is; the terminal colours are handed
    on only for the theme "system" with a terminal at hand. *)
Theorem New_sets_final_theme version appInfo env t na :
  New version appInfo env = (t, Done (Some na, None)) →
  let s := App.State (app na) in
  (∀ theme, ConfigInfo.Theme (Config na) = Some theme →
            State.Theme s = theme)
  ∧ themes_set t = (if decide (State.Theme s = "") then []
                    else [State.Theme s])
  ∧ system_themes t = match terminal env with
                      | Some term =>
                          if decide (State.Theme s = "system")
                          then [term] else []
                      | None => []
                      end.
Proof.
  intros N.
  apply New_inv in N
    as (r & c & stored & s & _ & _ & _ & _ & A & -> & _ & T & U).
  simpl. split; [|split; [|done]].
  - intros theme C. rewrite defaultKeybinds_Theme in C.
    apply applyConfig_inv in A as (s0 & _ & Th & _).
    by rewrite defaultKeybinds_Theme, C in Th.
  - rewrite T. destruct (decide (State.Theme s = "")) as [E|E].
    + rewrite decide_False; [done|]. by intros H.
    + by rewrite decide_True.
Qed.

(** X16.  [New] writes the persisted state at most once: the fresh state,
    as [config.NewState] gave it, exactly when the configuration was
    fetched and loading the state failed.  A state that was loaded is not
    written back, and what the configuration overrides is not written. *)
Theorem New_saves_only_fresh_state version appInfo env :
  let t := (New version appInfo env).1 in
  (saves t = [] ∨ saves t = [(statePath env, newState env)])
  ∧ (saves t = [(statePath env, newState env)]
     ↔ (∃ r c, configGet env = (Some r, None)
           ∧ PostConfigGetResponse.StatusCode r = 200%Z
           ∧ PostConfigGetResponse.JSON200 r = Some c)
       ∧ (loadState env).2 ≠ None).
Proof.
  unfold New, startState, startTheme, wbind, wlift, wret, effect, wlog,
    deref.
  destruct (configGet env) as [[r|] [e|]]; simpl;
    try (split; [by left|];
         split; [done|]; by intros [(? & ? & ? & _) _]).
  case_bool_decide as St; simpl.
  { split; [by left|]. split; [done|].
    by intros [(? & ? & [= <-] & ? & _) _]. }
  destruct (PostConfigGetResponse.JSON200 r) as [c|] eqn:J; simpl.
  2:{ split; [by left|]. split; [done|].
      intros [(? & ? & [= <-] & _ & J') _]. by rewrite J in J'. }
  destruct (loadState env) as [loaded [le|]]; simpl;
    (match goal with
     | |- context [applyConfig ?c ?x] =>
         destruct (applyConfig c x) as [[s|]|]
     end; simpl);
    destruct (loadThemes env); simpl;
    try (destruct (decide (State.Theme s ≠ "")); simpl;
         try (destruct (decide (State.Theme s = "system")); simpl;
              try (destruct (terminal env); simpl)));
    (split; [by eauto|]);
    (split; [first [done|intros _; split; [by eauto|done]]|]);
    first [done|by intros [_ ?]].
Qed.

(** X17.  Straight after start-up the application is not busy, and the
    session [New] stores has an empty id: the first send asks the service
    for a session before anything else.  No provider and no model are
    selected yet, so the chat request of such a send panics when run on
    the [App] as the send leaves it. *)
Theorem first_send_after_New version appInfo env t na senv text attachments :
  New version appInfo env = (t, Done (Some na, None)) →
  let sent := SendChatMessage (app na) senv text attachments in
  IsBusy (app na) = false
  ∧ (∃ t', sent.1 = EvRequest PostSessionCreate :: t')
  ∧ Forall (λ body, body = Panic) (dispatched sent).
Proof.
  intros N.
  apply New_inv in N as (r & c & stored & s & _ & _ & _ & _ & _ & -> & _).
  simpl. split; [done|].
  unfold dispatched. unfold_send. simpl.
  destruct (creation senv) as [[resp|] [e|]]; simpl;
    try (split; [by eauto|done]).
  case_bool_decide; simpl; [split; [by eauto|done]|].
  destruct (PostSessionCreateResponse.JSON200 resp); simpl;
    (split; [by eauto|]); [|done].
  by repeat constructor.
Qed.

Section StartUpSelection.

Variable rangeModels :
  RangeSite → gmap string ModelInfo.t → list (string * ModelInfo.t).
Hypothesis rangeModels_perm :
  ∀ site m, rangeModels site m ≡ₚ map_to_list m.

(** X18.  Start-up, then the provider resolution: a configured model
    "provider/model" whose provider is listed and holds a model with
    that id is the selection the resolution returns, whatever the
    defaults of the listing and whatever state was stored. *)
Theorem configured_model_is_selected version appInfo env t na pid mid
    r response p k m :
  New version appInfo env = (t, Done (Some na, None)) →
  ConfigInfo.Model (Config na) = Some (pid +:+ "/" +:+ mid) →
  occurs slash pid = false →
  PostProviderListResponse.StatusCode r = 200%Z →
  PostProviderListResponse.JSON200 r = Some response →
  p ∈ ProviderList.Providers response →
  ProviderInfo.Id p = pid →
  ProviderInfo.Models p !! k = Some m →
  ModelInfo.Id m = mid →
  ∃ p' m',
    InitializeProvider rangeModels (app na) (Some r, None)
    = ([EvRequest PostProviderList],
       Done (Some (ModelSelectedMsg p' m')))
    ∧ p' ∈ ProviderList.Providers response
    ∧ ProviderInfo.Id p' = pid
    ∧ ModelInfo.Id m' = mid.
Proof.
  intros N C O St J Ip Ep L Em.
  rewrite (InitializeProvider_ok rangeModels _ r response St J).
  rewrite bool_decide_eq_false_2.
  2:{ intros Len. apply nil_length_inv in Len. rewrite Len in Ip.
      by apply elem_of_nil in Ip. }
  apply New_inv in N as (r0 & c & stored & s & _ & _ & _ & _ & A & -> & _).
  simpl in *. rewrite defaultKeybinds_Model in C.
  apply applyConfig_inv in A as (s0 & _ & _ & M).
  rewrite defaultKeybinds_Model, C in M.
  destruct M as (piece & pieces & P & EP & EM).
  change (pid +:+ "/" +:+ mid) with (pid +:+ String slash mid) in P.
  rewrite (strings_Split_prefixed pid mid slash O) in P.
  injection P as <- <-.
  change "/" with (String slash "") in EM. rewrite strings_Join_Split in EM.
  assert (Pe : persisted s (ProviderList.Providers response)).
  { exists p, k, m. by rewrite EP, EM. }
  pose proof (seedDefault_providers rangeModels response) as SP.
  destruct (seedDefault rangeModels response) as [[dp dm] ps].
  simpl in SP. subst ps. unfold resolve. simpl.
  destruct (reconcile_found rangeModels rangeModels_perm s _ Pe)
    as (p' & m' & R & Ip' & Ep' & Em' & _).
  rewrite R. exists p', m'. split; [done|]. split; [done|].
  by rewrite Ep', Em', EP, EM.
Qed.

End StartUpSelection.

(** ** The session life cycle *)

(** X19.  [InitializeProject] asks for a new session whatever the current
    one is.  When the creation fails it gives up silently: the [App] is
    unchanged, nothing is started, and no command, not even an error
    toast, is returned.  Otherwise the session answered replaces the
    current one, the initialisation is started once, and the command
    announces the session. *)
Theorem InitializeProject_outcomes a creation :
  (∀ e, CreateFails creation e →
        InitializeProject a creation
        = ([Traced (EvRequest PostSessionCreate)], Done (a, None)))
  ∧ (∀ r, creation = (Some r, None) →
          PostSessionCreateResponse.StatusCode r = 200%Z →
          let session := PostSessionCreateResponse.JSON200 r in
          InitializeProject a creation
          = ([Traced (EvRequest PostSessionCreate);
              Traced (EvSetSession session); Go InitializeTask],
             Done (App.with_Session a session,
                   Some (Batch [CmdHandler (SessionSelectedMsg session)])))).
Proof.
  split.
  - intros e F. destruct F as [resp e|r St];
      unfold InitializeProject, traced, CreateSession, wbind, wret, effect,
        bind, ret, emit, lift; simpl; [done|].
    by rewrite bool_decide_eq_true_2.
  - intros r -> St session.
    unfold InitializeProject, traced, CreateSession, wbind, wret, effect,
      bind, ret, emit, lift; simpl.
    by rewrite bool_decide_eq_false_2 by (by intros ?).
Qed.

(** X20.  The initialisation request is built from the [App] as it is
    when the goroutine runs: without a session, a provider or a model
    it panics before anything is sent; otherwise one request goes out,
    and every failure ends in the log only, a transport error and a
    status other than 200 each leaving a record of their own. *)
Theorem runInitialize_outcomes a response err :
  (runInitialize a (response, err) = ([], Panic)
   ↔ App.Session a = None ∨ App.Provider a = None ∨ App.Model a = None)
  ∧ (∀ session provider model,
       App.Session a = Some session →
       App.Provider a = Some provider →
       App.Model a = Some model →
       ∃ logs,
         runInitialize a (response, err)
         = (Called (PostSessionInitialize
              {| PostSessionInitializeJSONRequestBody.SessionID :=
                   SessionInfo.Id session;
                 PostSessionInitializeJSONRequestBody.ProviderID :=
                   ProviderInfo.Id provider;
                 PostSessionInitializeJSONRequestBody.ModelID :=
                   ModelInfo.Id model |})
            :: (Traced <$> logs),
            Done tt)
         ∧ Forall (λ e, ∃ attrs,
                     e = EvLog LevelError "Failed to initialize project"
                           attrs) logs
         ∧ length logs
           = (if err is Some _ then 1 else 0)
             + (if response is Some code
                then if bool_decide (code ≠ 200%Z) then 1 else 0
                else 0)).
Proof.
  unfold runInitialize, wbind, wlift, wret, effect, wlog, deref.
  split.
  - destruct (App.Session a), (App.Provider a), (App.Model a); simpl;
      try (split; [intros _; by eauto|done]).
    split; [|by intros [?|[?|?]]].
    destruct err, response as [code|]; simpl; try done;
      by case_bool_decide.
  - intros session provider model -> -> ->. simpl.
    destruct err as [e|], response as [code|]; simpl;
      try case_bool_decide; simpl.
    + exists [EvLog LevelError "Failed to initialize project" [("error", e)];
              EvLog LevelError "Failed to initialize project"
                [("error", fmt_d code)]].
      split; [done|]. split; [|done]. repeat constructor; by eexists.
    + exists [EvLog LevelError "Failed to initialize project" [("error", e)]].
      split; [done|]. split; [|done]. repeat constructor; by eexists.
    + exists [EvLog LevelError "Failed to initialize project" [("error", e)]].
      split; [done|]. split; [|done]. repeat constructor; by eexists.
    + exists [EvLog LevelError "Failed to initialize project"
                [("error", fmt_d code)]].
      split; [done|]. split; [|done]. repeat constructor; by eexists.
    + by exists [].
    + by exists [].
Qed.

(** X21.  [InitializeProject], then its goroutine: with a provider and
    a model selected, the initialisation request names the session just
    created, not the one current before; when the creation was answered
    with status 200 but no decoded session, the goroutine panics. *)
Theorem InitializeProject_then_goroutine a r provider model sent :
  App.Provider a = Some provider →
  App.Model a = Some model →
  PostSessionCreateResponse.StatusCode r = 200%Z →
  ∃ t a' cmd,
    InitializeProject a (Some r, None) = (t, Done (a', cmd))
    ∧ match PostSessionCreateResponse.JSON200 r with
      | Some session =>
          ∃ logs,
            (runInitialize a' sent).1
            = Called (PostSessionInitialize
                {| PostSessionInitializeJSONRequestBody.SessionID :=
                     SessionInfo.Id session;
                   PostSessionInitializeJSONRequestBody.ProviderID :=
                     ProviderInfo.Id provider;
                   PostSessionInitializeJSONRequestBody.ModelID :=
                     ModelInfo.Id model |}) :: logs
      | None => runInitialize a' sent = ([], Panic)
      end.
Proof.
  intros P Mo St.
  unfold InitializeProject, traced, CreateSession, wbind, wret, effect,
    bind, ret, emit, lift; simpl.
  rewrite bool_decide_eq_false_2 by (by intros ?). simpl.
  eexists _, _, _. split; [reflexivity|].
  destruct sent as [response err].
  unfold runInitialize, wbind, wlift, wret, effect, wlog, deref. simpl.
  rewrite P, Mo.
  destruct (PostSessionCreateResponse.JSON200 r) as [session|]; simpl;
    [|done].
  destruct err, response as [code|]; simpl; try case_bool_decide; simpl;
    by eexists.
Qed.

(** X22.  [Cancel] sends one abort request for the session named and
    always returns.  It reports success exactly when there is no
    transport error and the response is absent or has status 200; every
    failure is logged once, with the text of the error returned. *)
Theorem Cancel_reports_failures sessionID response err :
  ∃ logs res,
    Cancel sessionID (response, err)
    = (Called (PostSessionAbort sessionID) :: logs, Done res)
    ∧ (res = None
       ↔ err = None ∧ (response = None ∨ response = Some 200%Z))
    ∧ logs = match res with
             | Some e =>
                 [Traced (EvLog LevelError "Failed to cancel session"
                            [("error", e)])]
             | None => []
             end.
Proof.
  unfold Cancel, wbind, wret, effect, wlog.
  destruct err as [e|]; simpl.
  - eexists _, _. split; [reflexivity|]. split; [|done].
    split; [done|by intros [? _]].
  - destruct response as [code|]; simpl.
    + case_bool_decide as N; simpl.
      * eexists _, _. split; [reflexivity|]. split; [|done].
        split; [done|]. intros [_ [?|[= ->]]]; done.
      * subst code. eexists _, _. split; [reflexivity|]. split; [|done].
        split; [|done]. intros _. split; [done|by right].
    + eexists _, _. split; [reflexivity|]. split; [|done].
      split; [|done]. intros _. split; [done|by left].
Qed.

(** X23.  [MarkProjectInitialized] sends one request and always returns,
    reporting success exactly when there is no transport error and the
    response is absent or has status 200.  Only a transport error is
    logged: a refused status is returned as an error but leaves no
    record. *)
Theorem MarkProjectInitialized_reports response err :
  ∃ logs res,
    MarkProjectInitialized (response, err)
    = (Called PostAppInitialize :: logs, Done res)
    ∧ (res = None
       ↔ err = None ∧ (response = None ∨ response = Some 200%Z))
    ∧ logs = match err with
             | Some e =>
                 [Traced (EvLog LevelError
                            "Failed to mark project as initialized"
                            [("error", e)])]
             | None => []
             end
    ∧ (∀ e, err = Some e → res = Some e).
Proof.
  unfold MarkProjectInitialized, wbind, wret, effect, wlog.
  destruct err as [e|]; simpl.
  - eexists _, _. split; [reflexivity|]. split; [|split; [done|]].
    + split; [done|by intros [? _]].
    + by intros ? [= <-].
  - destruct response as [code|]; simpl.
    + case_bool_decide as N; simpl.
      * eexists _, _. split; [reflexivity|]. split; [|done].
        split; [done|]. intros [_ [?|[= ->]]]; done.
      * subst code. eexists _, _. split; [reflexivity|]. split; [|done].
        split; [|done]. intros _. split; [done|by right].
    + eexists _, _. split; [reflexivity|]. split; [|done].
      split; [|done]. intros _. split; [done|by left].
Qed.

(** X24.  [DeleteSession] sends one delete request and logs nothing.
    Where a response or an error exists it succeeds and fails exactly as
    [Cancel] does on the same outcome; with neither, [Cancel] reports
    success while [DeleteSession] panics. *)
Theorem DeleteSession_against_Cancel sessionID sent :
  (DeleteSession sessionID sent).1 = [Called (PostSessionDelete sessionID)]
  ∧ ((DeleteSession sessionID sent).2 = Panic ↔ sent = (None, None))
  ∧ (∀ res, (DeleteSession sessionID sent).2 = Done res →
       ∃ res', (Cancel sessionID sent).2 = Done res'
               ∧ (res = None ↔ res' = None))
  ∧ (Cancel sessionID (None, None)).2 = Done None.
Proof.
  destruct sent as [[code|] [e|]];
    unfold DeleteSession, Cancel, wbind, wlift, wret, effect, wlog, deref;
    simpl; try case_bool_decide; simpl;
    (split; [done|]); (split; [by split|]); (split; [|done]);
    intros res [= <-]; by eexists.
Qed.

(** X25.  [ListMessages] sends one request for the session named.  It
    panics exactly when there is neither a response nor an error; a
    failure gives no message and an error; a success gives the messages
    of the body as they are, in their order, and none for an absent
    body. *)
Theorem ListMessages_outcomes sessionId resp err :
  let result := ListMessages sessionId (resp, err) in
  result.1 = [Called (PostSessionMessages sessionId)]
  ∧ (result.2 = Panic ↔ resp = None ∧ err = None)
  ∧ (∀ messages,
       result.2 = Done (messages, None)
       ↔ err = None
         ∧ ∃ r, resp = Some r
             ∧ PostSessionMessagesResponse.StatusCode r = 200%Z
             ∧ messages = default [] (PostSessionMessagesResponse.JSON200 r))
  ∧ (∀ messages e,
       result.2 = Done (messages, Some e)
       ↔ messages = []
         ∧ (err = Some e
            ∨ err = None
              ∧ ∃ r, resp = Some r
                  ∧ PostSessionMessagesResponse.StatusCode r ≠ 200%Z
                  ∧ e = "failed to list messages: "
                          +:+ fmt_d (PostSessionMessagesResponse.StatusCode r))).
Proof.
  intros result. subst result.
  unfold ListMessages, wbind, wlift, wret, effect, deref.
  destruct err as [e0|]; simpl.
  { split; [done|]. split; [split; [done|by intros [_ ?]]|]. split.
    - intros messages. split; [done|by intros [? _]].
    - intros messages e. split.
      + intros [= <- <-]. split; [done|by left].
      + intros [-> [[= ->]|[? _]]]; done. }
  destruct resp as [r|]; simpl.
  2:{ split; [done|]. split; [by split|]. split.
      - intros messages. split; [done|by intros [_ (? & ? & _)]].
      - intros messages e. split; [done|].
        by intros [_ [?|[_ (? & ? & _)]]]. }
  case_bool_decide as St; simpl.
  { split; [done|]. split; [split; [done|by intros [? _]]|]. split.
    - intros messages. split; [done|].
      by intros [_ (? & [= <-] & ? & _)].
    - intros messages e. split.
      + intros [= <- <-]. split; [done|]. right. split; [done|]. by exists r.
      + intros [-> [?|[_ (? & [= <-] & _ & ->)]]]; done. }
  destruct (PostSessionMessagesResponse.JSON200 r) as [ms|] eqn:J; simpl;
    (split; [done|]); (split; [split; [done|by intros [? _]]|]); split.
  - intros messages. split.
    + intros [= <-]. split; [done|]. exists r. by rewrite J.
    + intros [_ (? & [= <-] & _ & ->)]. by rewrite J.
  - intros messages e. split; [done|].
    by intros [_ [?|[_ (? & [= <-] & ? & _)]]].
  - intros messages. split.
    + intros [= <-]. split; [done|]. exists r. by rewrite J.
    + intros [_ (? & [= <-] & _ & ->)]. by rewrite J.
  - intros messages e. split; [done|].
    by intros [_ [?|[_ (? & [= <-] & ? & _)]]].
Qed.

(** ** Listings *)

(** X26.  [ListProviders] sends one request and returns the providers
    of the body as they are, none for an absent body.  A status other
    than 200 gives an error that speaks of sessions: it is the very error
    [ListSessions] gives for that status, whatever sorts the slices. *)
Theorem ListProviders_outcomes sort_Slice r :
  (PostProviderListResponse.StatusCode r = 200%Z →
   ListProviders (Some r, None)
   = ([EvRequest PostProviderList],
      Done (from_option ProviderList.Providers []
              (PostProviderListResponse.JSON200 r), None)))
  ∧ (PostProviderListResponse.StatusCode r ≠ 200%Z →
     ∃ e,
       ListProviders (Some r, None)
       = ([EvRequest PostProviderList], Done ([], Some e))
       ∧ ∀ r',
           PostSessionListResponse.StatusCode r'
           = PostProviderListResponse.StatusCode r →
           ListSessions sort_Slice (Some r', None)
           = ([EvRequest PostSessionList], Done ([], Some e))).
Proof.
  unfold ListProviders, ListSessions, bind, lift, ret, emit, deref.
  split.
  - intros St. simpl.
    rewrite bool_decide_eq_false_2 by (by rewrite St; intros ?).
    by destruct (PostProviderListResponse.JSON200 r).
  - intros St. simpl. rewrite bool_decide_eq_true_2 by done. simpl.
    eexists. split; [reflexivity|]. intros r' E. simpl.
    rewrite bool_decide_eq_true_2 by (by rewrite E). simpl. by rewrite E.
Qed.

Section ListingAgainstResolution.

Variable rangeModels :
  RangeSite → gmap string ModelInfo.t → list (string * ModelInfo.t).
Hypothesis rangeModels_perm :
  ∀ site m, rangeModels site m ≡ₚ map_to_list m.

(** X27.  [ListProviders] and the provider resolution on the same
    outcome of the listing: both send the one request; where the
    resolution returns a message, its provider is among the providers
    [ListProviders] returns; a status 200 without a decoded body is an
    empty listing for [ListProviders] and a panic for the resolution. *)
Theorem ListProviders_against_resolution a r :
  PostProviderListResponse.StatusCode r = 200%Z →
  (∀ t p m,
     InitializeProvider rangeModels a (Some r, None)
     = (t, Done (Some (ModelSelectedMsg p m))) →
     ∃ ps, ListProviders (Some r, None)
           = ([EvRequest PostProviderList], Done (ps, None))
           ∧ p ∈ ps)
  ∧ (PostProviderListResponse.JSON200 r = None →
     ListProviders (Some r, None)
     = ([EvRequest PostProviderList], Done ([], None))
     ∧ InitializeProvider rangeModels a (Some r, None)
       = ([EvRequest PostProviderList], Panic)).
Proof.
  intros St. split.
  - intros t p m H.
    destruct (PostProviderListResponse.JSON200 r) as [response|] eqn:J.
    2:{ revert H. unfold InitializeProvider, bind, lift, emit, deref. simpl.
        rewrite bool_decide_eq_false_2 by (by rewrite St; intros ?).
        by rewrite J. }
    exists (ProviderList.Providers response). split.
    + unfold ListProviders, bind, lift, ret, emit, deref. simpl.
      rewrite bool_decide_eq_false_2 by (by rewrite St; intros ?).
      by rewrite J.
    + rewrite (InitializeProvider_ok rangeModels a r response St J) in H.
      case_bool_decide; [done|]. injection H as _ H.
      pose proof (seedDefault_seeded rangeModels response) as SD.
      pose proof (seedDefault_providers rangeModels response) as SP.
      destruct (seedDefault rangeModels response) as [[dp dm] ps].
      simpl in SD, SP. subst ps. unfold resolve in H.
      pose proof (reconcile_reconciled rangeModels rangeModels_perm
                    (App.State a) (ProviderList.Providers response)) as R.
      destruct (reconcileLoop rangeModels (App.State a) 0 _ (None, None))
        as [cp [cm|]]; unfold reconciled in R; simpl in R.
      * destruct R as ((q & -> & Iq & _) & _).
        unfold fallback, selected in H. simpl in H. by injection H as <- _.
      * unfold fallback in H. simpl in H. rewrite orb_true_r in H.
        unfold selected in H. simpl in H.
        destruct dp as [dp|]; simpl in H; [|done].
        destruct dm as [dm|]; simpl in H; [|done].
        injection H as <- _. by destruct SD.
  - intros J. split.
    + unfold ListProviders, bind, lift, ret, emit, deref. simpl.
      rewrite bool_decide_eq_false_2 by (by rewrite St; intros ?).
      by rewrite J.
    + unfold InitializeProvider, bind, lift, emit, deref. simpl.
      rewrite bool_decide_eq_false_2 by (by rewrite St; intros ?).
      by rewrite J.
Qed.

End ListingAgainstResolution.

(** Creation times that descend and are pairwise distinct descend
    strictly. *)
Lemma descending_distinct_strict (l : list SessionInfo.t) :
  StronglySorted
    (λ x y, (SessionInfo.Created y ≤ SessionInfo.Created x)%Z) l →
  NoDup (SessionInfo.Created <$> l) →
  StronglySorted
    (λ x y, (SessionInfo.Created y < SessionInfo.Created x)%Z) l.
Proof.
  induction 1 as [|x l S IH F]; intros N; [constructor|].
  rewrite fmap_cons in N. apply NoDup_cons in N as [Nx N].
  constructor; [by apply IH|].
  rewrite Forall_forall in F |- *. intros y Iy.
  specialize (F y Iy).
  assert (SessionInfo.Created y ≠ SessionInfo.Created x); [|lia].
  intros E. apply Nx. rewrite <- E. by apply list_elem_of_fmap_2.
Qed.

(** Two strictly descending arrangements of the same sessions are the
    same list. *)
Lemma strictly_descending_unique (l1 l2 : list SessionInfo.t) :
  StronglySorted
    (λ x y, (SessionInfo.Created y < SessionInfo.Created x)%Z) l1 →
  StronglySorted
    (λ x y, (SessionInfo.Created y < SessionInfo.Created x)%Z) l2 →
  l1 ≡ₚ l2 → l1 = l2.
Proof.
  intros S1 S2 P.
  assert (A : AntiSymm (=)
                (λ x y : SessionInfo.t,
                   (SessionInfo.Created y < SessionInfo.Created x)%Z)).
  { intros x y ? ?. lia. }
  by apply (StronglySorted_unique _ l1 l2).
Qed.

(** X28.  When the sessions of the body have pairwise distinct creation
    times, the list [ListSessions] returns is settled by the body alone:
    every [sort.Slice] that keeps to its contract gives the same list,
    for every arrangement of the body, and a body whose times already
    descend is returned as it is. *)
Theorem distinct_times_settle_the_order sort1 sort2 r1 r2 l1 l2 :
  SortsSlices sort1 →
  SortsSlices sort2 →
  PostSessionListResponse.StatusCode r1 = 200%Z →
  PostSessionListResponse.StatusCode r2 = 200%Z →
  PostSessionListResponse.JSON200 r1 = Some l1 →
  PostSessionListResponse.JSON200 r2 = Some l2 →
  l1 ≡ₚ l2 →
  NoDup (SessionInfo.Created <$> l1) →
  ListSessions sort1 (Some r1, None) = ListSessions sort2 (Some r2, None)
  ∧ (StronglySorted
       (λ x y, (SessionInfo.Created y ≤ SessionInfo.Created x)%Z) l1 →
     ListSessions sort1 (Some r1, None)
     = ([EvRequest PostSessionList], Done (l1, None))).
Proof.
  intros H1 H2 St1 St2 J1 J2 P N.
  assert (D : ∀ sort l, SortsSlices sort → l ≡ₚ l1 →
            StronglySorted
              (λ x y, (SessionInfo.Created y < SessionInfo.Created x)%Z)
              (sort created_less l)).
  { intros sort l H Pl. apply descending_distinct_strict.
    - by apply sorted_by_created.
    - eapply NoDup_Permutation_proper; [|exact N].
      apply fmap_Permutation. by rewrite (sort_Slice_perm sort H). }
  unfold ListSessions, bind, lift, ret, emit, deref. simpl.
  rewrite !bool_decide_eq_false_2
    by ((by rewrite St1; intros ?) || (by rewrite St2; intros ?)).
  rewrite J1, J2. simpl. split.
  - do 3 f_equal. apply strictly_descending_unique.
    + by apply D.
    + apply D; [done|]. by symmetry.
    + by rewrite (sort_Slice_perm sort1 H1), (sort_Slice_perm sort2 H2).
  - intros S. do 3 f_equal. apply strictly_descending_unique.
    + by apply D.
    + by apply descending_distinct_strict.
    + by rewrite (sort_Slice_perm sort1 H1).
Qed.

(** X29.  [ListSessions] sends one request; it panics exactly when there
    is neither a response nor an error, and it fails, with no session
    and an error, exactly on a transport error or a status other than
    200, before the slice is sorted: the failures are the same for
    every [sort.Slice]. *)
Theorem ListSessions_failures sort_Slice resp err :
  let result := ListSessions sort_Slice (resp, err) in
  result.1 = [EvRequest PostSessionList]
  ∧ (result.2 = Panic ↔ resp = None ∧ err = None)
  ∧ (∀ sessions e,
       result.2 = Done (sessions, Some e)
       ↔ sessions = []
         ∧ (err = Some e
            ∨ err = None
              ∧ ∃ r, resp = Some r
                  ∧ PostSessionListResponse.StatusCode r ≠ 200%Z
                  ∧ e = "failed to list sessions: "
                          +:+ fmt_d (PostSessionListResponse.StatusCode r))).
Proof.
  intros result. subst result.
  unfold ListSessions, bind, lift, ret, emit, deref.
  destruct err as [e0|]; simpl.
  { split; [done|]. split; [split; [done|by intros [_ ?]]|].
    intros sessions e. split.
    - intros [= <- <-]. split; [done|by left].
    - intros [-> [[= ->]|[? _]]]; done. }
  destruct resp as [r|]; simpl.
  2:{ split; [done|]. split; [by split|].
      intros sessions e. split; [done|].
      by intros [_ [?|[_ (? & ? & _)]]]. }
  case_bool_decide as St; simpl.
  { split; [done|]. split; [split; [done|by intros [? _]]|].
    intros sessions e. split.
    - intros [= <- <-]. split; [done|]. right. split; [done|]. by exists r.
    - intros [-> [?|[_ (? & [= <-] & _ & ->)]]]; done. }
  destruct (PostSessionListResponse.JSON200 r) as [ss|]; simpl;
    (split; [done|]); (split; [split; [done|by intros [? _]]|]);
    intros sessions e; (split; [done|]);
    by intros [_ [?|[_ (? & [= <-] & ? & _)]]].
Qed.

(** ** The further properties on concrete runs *)

Lemma creation_without_body_panics_witness :
  SendChatMessage ready_app env_no_body "hi" []
  = ([EvRequest PostSessionCreate; EvSetSession None], Panic).
Proof.
  apply (creation_without_body_panics ready_app env_no_body "hi" []
           SessionInfo.zero
           {| PostSessionCreateResponse.StatusCode := 200;
              PostSessionCreateResponse.JSON200 := None |});
    reflexivity.
Defined.

Lemma send_with_active_session_witness :
  let m := optimistic env_later "ses_1" "again" in
  SendChatMessage sent_app env_later "again" [notes_txt]
  = ([EvAppendMessage m],
     Done (App.with_Messages sent_app [sent_message; m],
           Batch [CmdHandler (OptimisticMessageAddedMsg m);
                  PostChat (MessageInfo.Parts m)])).
Proof.
  apply (send_with_active_session sent_app env_later "again" [notes_txt]
           session1).
  - reflexivity.
  - discriminate.
Defined.

Lemma send_preserves_app_witness :
  App.State sent_app = App.State ready_app
  ∧ App.Provider sent_app = App.Provider ready_app
  ∧ App.Model sent_app = App.Model ready_app
  ∧ ((App.Messages sent_app = App.Messages ready_app
      ∧ payloads sent_app (Batch sent_cmds) = [])
     ∨ (∃ m, App.Messages sent_app = App.Messages ready_app ++ [m]
             ∧ length (payloads sent_app (Batch sent_cmds)) = 1)).
Proof.
  apply (send_preserves_app ready_app env_created "hi" [] sent_trace
           sent_app (Batch sent_cmds)).
  reflexivity.
Defined.

Lemma send_dispatches_what_it_shows_witness :
  ∃ m, last (App.Messages sent_app) = Some m
    ∧ payloads sent_app (Batch sent_cmds)
      = [Done {| PostSessionChatJSONRequestBody.SessionID :=
                   MessageMetadata.SessionID (MessageInfo.Metadata m);
                 PostSessionChatJSONRequestBody.Parts := MessageInfo.Parts m;
                 PostSessionChatJSONRequestBody.ProviderID := "anthropic";
                 PostSessionChatJSONRequestBody.ModelID := "claude-3" |}].
Proof.
  apply (send_dispatches_what_it_shows ready_app env_created "hi" []
           sent_trace sent_app sent_cmds anthropic_full claude3);
    reflexivity.
Defined.

Lemma second_send_reuses_session_witness :
  let m1 := optimistic env_created "ses_1" "hi" in
  let m2 := optimistic env_later "ses_1" "again" in
  ∃ t1 a1 c1 a2 c2,
    SendChatMessage ready_app env_created "hi" [] = (t1, Done (a1, c1))
    ∧ SendChatMessage a1 env_later "again" [notes_txt]
      = ([EvAppendMessage m2], Done (a2, c2))
    ∧ App.Session a2 = Some session1
    ∧ App.Messages a2 = App.Messages ready_app ++ [m1; m2].
Proof.
  apply (second_send_reuses_session ready_app env_created env_later
           "hi" "again" [] [notes_txt] SessionInfo.zero
           {| PostSessionCreateResponse.StatusCode := 200;
              PostSessionCreateResponse.JSON200 := Some session1 |}
           session1);
    (reflexivity || discriminate).
Defined.

Lemma optimistic_ids_follow_clock_witness :
  MessageInfo.Id sent_message
  = MessageInfo.Id (optimistic env_later "ses_1" "again")
  ↔ now_UnixNano env_created = now_UnixNano env_later.
Proof.
  apply (optimistic_ids_follow_clock ready_app sent_app env_created
           env_later "hi" "again" [] [] sent_trace
           [EvAppendMessage (optimistic env_later "ses_1" "again")]
           sent_app
           (App.with_Messages sent_app
              [sent_message; optimistic env_later "ses_1" "again"])
           sent_cmds
           [CmdHandler (OptimisticMessageAddedMsg
                          (optimistic env_later "ses_1" "again"));
            PostChat (MessageInfo.Parts
                        (optimistic env_later "ses_1" "again"))]);
    reflexivity.
Defined.

Lemma optimistic_time_within_64s_witness :
  let created :=
    MessageTime.Created
      (MessageMetadata.Time (MessageInfo.Metadata sent_message)) in
  (Z.abs (created - now_Unix env_created) ≤ 64)%Z
  ∧ ((now_Unix env_created < 2 ^ 24)%Z → created = now_Unix env_created).
Proof.
  apply (optimistic_time_within_64s ready_app env_created "hi" []
           sent_trace sent_app sent_cmds sent_message).
  - reflexivity.
  - reflexivity.
  - simpl. lia.
Defined.

Lemma dispatch_toasts_failures_witness :
  ∃ logs msg,
    runPostChat sent_app (MessageInfo.Parts sent_message) (Some 500%Z, None)
    = (EvRequest (PostSessionChat
         {| PostSessionChatJSONRequestBody.SessionID := "ses_1";
            PostSessionChatJSONRequestBody.Parts :=
              MessageInfo.Parts sent_message;
            PostSessionChatJSONRequestBody.ProviderID := "anthropic";
            PostSessionChatJSONRequestBody.ModelID := "claude-3" |})
       :: logs, Done msg)
    ∧ (msg = None
       ↔ @None error = None
         ∧ (Some 500%Z = None ∨ Some 500%Z = Some 200%Z))
    ∧ (msg = None → logs = [])
    ∧ (∀ text, msg = Some (ErrorToastMsg text) →
               logs = [EvLog LevelError text []])
    ∧ (msg = None ∨ ∃ text, msg = Some (ErrorToastMsg text)).
Proof.
  apply (dispatch_toasts_failures sent_app (MessageInfo.Parts sent_message)
           {| PostSessionChatJSONRequestBody.SessionID := "ses_1";
              PostSessionChatJSONRequestBody.Parts :=
                MessageInfo.Parts sent_message;
              PostSessionChatJSONRequestBody.ProviderID := "anthropic";
              PostSessionChatJSONRequestBody.ModelID := "claude-3" |}
           (Some 500%Z) None).
  reflexivity.
Defined.

Lemma New_splits_configured_model_witness :
  let s := App.State (app started) in
  occurs slash (State.Provider s) = false
  ∧ (occurs slash "openai/gpt-4" = false
     → State.Provider s = "openai/gpt-4" ∧ State.Model s = "")
  ∧ (occurs slash "openai/gpt-4" = true
     → "openai/gpt-4" = State.Provider s +:+ "/" +:+ State.Model s).
Proof.
  apply (New_splits_configured_model "0.1.0" start_info start_env
           start_trace started "openai/gpt-4");
    reflexivity.
Defined.

Lemma New_sets_final_theme_witness :
  let s := App.State (app started) in
  (∀ theme, ConfigInfo.Theme (Config started) = Some theme →
            State.Theme s = theme)
  ∧ themes_set start_trace = (if decide (State.Theme s = "") then []
                              else [State.Theme s])
  ∧ system_themes start_trace
    = match terminal start_env with
      | Some term =>
          if decide (State.Theme s = "system") then [term] else []
      | None => []
      end.
Proof.
  apply (New_sets_final_theme "0.1.0" start_info start_env start_trace
           started).
  reflexivity.
Defined.

Lemma first_send_after_New_witness :
  let sent := SendChatMessage (app started) env_created "hi" [] in
  IsBusy (app started) = false
  ∧ (∃ t', sent.1 = EvRequest PostSessionCreate :: t')
  ∧ Forall (λ body, body = Panic) (dispatched sent).
Proof.
  apply (first_send_after_New "0.1.0" start_info start_env start_trace
           started env_created "hi" []).
  reflexivity.
Defined.

Lemma configured_model_is_selected_witness :
  ∃ p' m',
    InitializeProvider rangeSorted (app started)
      (Some (ok_response listing_first_with_model), None)
    = ([EvRequest PostProviderList],
       Done (Some (ModelSelectedMsg p' m')))
    ∧ p' ∈ ProviderList.Providers listing_first_with_model
    ∧ ProviderInfo.Id p' = "openai"
    ∧ ModelInfo.Id m' = "gpt-4".
Proof.
  apply (configured_model_is_selected rangeSorted rangeSorted_perm
           "0.1.0" start_info start_env start_trace started
           "openai" "gpt-4" (ok_response listing_first_with_model)
           listing_first_with_model openai_full "gpt-4" gpt4);
    try reflexivity.
  by left.
Defined.

Lemma InitializeProject_then_goroutine_witness :
  ∃ t a' cmd,
    InitializeProject ready_app (creation env_created) = (t, Done (a', cmd))
    ∧ ∃ logs,
        (runInitialize a' (Some 500%Z, None)).1
        = Called (PostSessionInitialize
            {| PostSessionInitializeJSONRequestBody.SessionID := "ses_1";
               PostSessionInitializeJSONRequestBody.ProviderID := "anthropic";
               PostSessionInitializeJSONRequestBody.ModelID := "claude-3" |})
          :: logs.
Proof.
  apply (InitializeProject_then_goroutine ready_app
           {| PostSessionCreateResponse.StatusCode := 200;
              PostSessionCreateResponse.JSON200 := Some session1 |}
           anthropic_full claude3 (Some 500%Z, None));
    reflexivity.
Defined.

Lemma ListProviders_against_resolution_witness :
  (∀ t p m,
     InitializeProvider rangeSorted fresh_app (listed listing_scenario)
     = (t, Done (Some (ModelSelectedMsg p m))) →
     ∃ ps, ListProviders (listed listing_scenario)
           = ([EvRequest PostProviderList], Done (ps, None))
           ∧ p ∈ ps)
  ∧ (PostProviderListResponse.JSON200 (ok_response listing_scenario) = None →
     ListProviders (listed listing_scenario)
     = ([EvRequest PostProviderList], Done ([], None))
     ∧ InitializeProvider rangeSorted fresh_app (listed listing_scenario)
       = ([EvRequest PostProviderList], Panic)).
Proof.
  apply (ListProviders_against_resolution rangeSorted rangeSorted_perm
           fresh_app (ok_response listing_scenario)).
  reflexivity.
Defined.

Lemma distinct_times_settle_the_order_witness :
  ListSessions insertion_sort
    (Some (sessions_listed (Some [ses_c; ses_a; ses_b])), None)
  = ListSessions reversing_sort
      (Some (sessions_listed (Some [ses_a; ses_c; ses_b])), None)
  ∧ (StronglySorted
       (λ x y, (SessionInfo.Created y ≤ SessionInfo.Created x)%Z)
       [ses_c; ses_a; ses_b] →
     ListSessions insertion_sort
       (Some (sessions_listed (Some [ses_c; ses_a; ses_b])), None)
     = ([EvRequest PostSessionList], Done ([ses_c; ses_a; ses_b], None))).
Proof.
  apply (distinct_times_settle_the_order insertion_sort reversing_sort
           (sessions_listed (Some [ses_c; ses_a; ses_b]))
           (sessions_listed (Some [ses_a; ses_c; ses_b]))
           [ses_c; ses_a; ses_b] [ses_a; ses_c; ses_b]
           insertion_sort_sorts reversing_sort_sorts).
  - reflexivity.
  - reflexivity.
  - reflexivity.
  - reflexivity.
  - apply perm_swap.
  - apply (bool_decide_unpack _). vm_compute. exact I.
Defined.
